(** * InMermaid: the rendering core ([mermaid_renderer.py]) and the
    request adapter ([bot.py])

    A shallow embedding of [MermaidRenderer] and the properties of its
    render pipeline: the result cache keyed by the MD5 digest of the
    diagram text, the scoped rendering surface, the failure taxonomy and
    the image post-processor.

    The renderer talks to three libraries: [hashlib] (embedded here
    bit for bit, so cache keys compute), Playwright (a headless browser,
    embedded as typed requests answered by an arbitrary [Driver] that
    sees the whole history of calls) and Pillow (embedded as an arbitrary
    implementation of the handful of operations [_optimize_image] uses).
    Every awaited call may return or raise; Python's [return],
    [try/except] and [try/finally] are embedded with their control flow.

    What is left out: calls to [logger]; the interleaving of several
    coroutines at an [await] (each call of the renderer runs to its end);
    and exceptions outside the class [Exception] (cancellation,
    interpreter exit), which no [except Exception] clause sees. *)

From Stdlib Require Import ZArith NArith List Ascii String Floats Lia DecimalString.
From Stdlib.Strings Require Import Byte.
From stdpp Require Import base option gmap strings list.

#[local] Open Scope Z_scope.

(** ** Python values

    A Python [str] is a sequence of code points (below [0x110000]); lone
    surrogates are legal inside a [str].  [bytes] is a sequence of bytes. *)

Definition Str : Type := list N.
Definition Bytes : Type := list byte.

(** A literal of the source, as a [str]. *)
Definition py (s : string) : Str :=
  map N_of_ascii (list_ascii_of_string s).

(** Exceptions of class [Exception], carrying the text [str(e)]. *)
Inductive Exn : Type :=
| Exception (msg : Str).

Definition str_of_exn (e : Exn) : Str :=
  match e with Exception msg => msg end.

(** ** [str.encode()]: UTF-8, strict

    [encode] raises [UnicodeEncodeError] on a surrogate code point
    ([0xD800..0xDFFF]) and encodes every other code point on one to four
    bytes. *)

Definition byte_of_Z (z : Z) : byte :=
  match Byte.of_N (Z.to_N (z mod 256)) with
  | Some b => b
  | None => x00
  end.

Definition Z_of_byte (b : byte) : Z := Z.of_N (Byte.to_N b).

Definition is_surrogate (c : N) : bool :=
  ((0xD800 <=? c) && (c <=? 0xDFFF))%N.

Definition utf8_of_code_point (c : N) : list byte :=
  let z := Z.of_N c in
  if z <? 0x80 then [byte_of_Z z]
  else if z <? 0x800 then
    [byte_of_Z (Z.lor 0xC0 (Z.shiftr z 6));
     byte_of_Z (Z.lor 0x80 (Z.land z 0x3F))]
  else if z <? 0x10000 then
    [byte_of_Z (Z.lor 0xE0 (Z.shiftr z 12));
     byte_of_Z (Z.lor 0x80 (Z.land (Z.shiftr z 6) 0x3F));
     byte_of_Z (Z.lor 0x80 (Z.land z 0x3F))]
  else
    [byte_of_Z (Z.lor 0xF0 (Z.shiftr z 18));
     byte_of_Z (Z.lor 0x80 (Z.land (Z.shiftr z 12) 0x3F));
     byte_of_Z (Z.lor 0x80 (Z.land (Z.shiftr z 6) 0x3F));
     byte_of_Z (Z.lor 0x80 (Z.land z 0x3F))].

Definition UnicodeEncodeError : Exn :=
  Exception (py "'utf-8' codec can't encode character: surrogates not allowed").

Fixpoint encode (s : Str) : Exn + Bytes :=
  match s with
  | [] => inr []
  | c :: rest =>
      if is_surrogate c then inl UnicodeEncodeError
      else match encode rest with
           | inl e => inl e
           | inr bs => inr (utf8_of_code_point c ++ bs)
           end
  end.

(** ** [hashlib.md5(...).hexdigest()] (RFC 1321) *)

Module MD5.

Definition w32 (z : Z) : Z := z mod 2 ^ 32.

Definition rotl (x c : Z) : Z :=
  w32 (Z.lor (Z.shiftl x c) (Z.shiftr (w32 x) (32 - c))).

Definition shifts : list Z :=
  [7; 12; 17; 22; 7; 12; 17; 22; 7; 12; 17; 22; 7; 12; 17; 22;
   5; 9; 14; 20; 5; 9; 14; 20; 5; 9; 14; 20; 5; 9; 14; 20;
   4; 11; 16; 23; 4; 11; 16; 23; 4; 11; 16; 23; 4; 11; 16; 23;
   6; 10; 15; 21; 6; 10; 15; 21; 6; 10; 15; 21; 6; 10; 15; 21].

Definition sines : list Z :=
  [0xd76aa478; 0xe8c7b756; 0x242070db; 0xc1bdceee;
   0xf57c0faf; 0x4787c62a; 0xa8304613; 0xfd469501;
   0x698098d8; 0x8b44f7af; 0xffff5bb1; 0x895cd7be;
   0x6b901122; 0xfd987193; 0xa679438e; 0x49b40821;
   0xf61e2562; 0xc040b340; 0x265e5a51; 0xe9b6c7aa;
   0xd62f105d; 0x02441453; 0xd8a1e681; 0xe7d3fbc8;
   0x21e1cde6; 0xc33707d6; 0xf4d50d87; 0x455a14ed;
   0xa9e3e905; 0xfcefa3f8; 0x676f02d9; 0x8d2a4c8a;
   0xfffa3942; 0x8771f681; 0x6d9d6122; 0xfde5380c;
   0xa4beea44; 0x4bdecfa9; 0xf6bb4b60; 0xbebfbc70;
   0x289b7ec6; 0xeaa127fa; 0xd4ef3085; 0x04881d05;
   0xd9d4d039; 0xe6db99e5; 0x1fa27cf8; 0xc4ac5665;
   0xf4292244; 0x432aff97; 0xab9423a7; 0xfc93a039;
   0x655b59c3; 0x8f0ccc92; 0xffeff47d; 0x85845dd1;
   0x6fa87e4f; 0xfe2ce6e0; 0xa3014314; 0x4e0811a1;
   0xf7537e82; 0xbd3af235; 0x2ad7d2bb; 0xeb86d391].

(** The message followed by [0x80], zeros up to 56 modulo 64, and the
    bit length on eight little-endian bytes. *)
Definition le_bytes (n : nat) (z : Z) : list Z :=
  map (fun i => Z.land (Z.shiftr z (8 * Z.of_nat i)) 0xFF) (seq 0 n).

Definition pad (msg : list Z) : list Z :=
  let len := Z.of_nat (length msg) in
  let zeros := Z.to_nat ((55 - len) mod 64) in
  msg ++ [0x80] ++ repeat 0 zeros ++ le_bytes 8 (w32 (8 * len) + 2 ^ 32 * w32 ((8 * len) / 2 ^ 32)).

Fixpoint le_words (bs : list Z) : list Z :=
  match bs with
  | b0 :: b1 :: b2 :: b3 :: rest =>
      (b0 + 2 ^ 8 * b1 + 2 ^ 16 * b2 + 2 ^ 24 * b3) :: le_words rest
  | _ => []
  end.

Record state := State { sa : Z; sb : Z; sc : Z; sd : Z }.

Definition init : state :=
  State 0x67452301 0xefcdab89 0x98badcfe 0x10325476.

Definition lnot32 (x : Z) : Z := Z.lxor x 0xFFFFFFFF.

Definition round (m : list Z) (st : state) (i : nat) : state :=
  let '(State a b c d) := st in
  let zi := Z.of_nat i in
  let '(f, g) :=
    if zi <? 16 then (Z.lor (Z.land b c) (Z.land (lnot32 b) d), zi)
    else if zi <? 32 then (Z.lor (Z.land d b) (Z.land (lnot32 d) c), (5 * zi + 1) mod 16)
    else if zi <? 48 then (Z.lxor (Z.lxor b c) d, (3 * zi + 5) mod 16)
    else (Z.lxor c (Z.lor b (lnot32 d)), (7 * zi) mod 16) in
  let f' := w32 (f + a + nth i sines 0 + nth (Z.to_nat g) m 0) in
  State d (w32 (b + rotl f' (nth i shifts 0))) b c.

Definition chunk (st : state) (m : list Z) : state :=
  let st' := fold_left (round m) (seq 0 64) st in
  State (w32 (sa st + sa st')) (w32 (sb st + sb st'))
        (w32 (sc st + sc st')) (w32 (sd st + sd st')).

Fixpoint chunks (fuel : nat) (ws : list Z) (st : state) : state :=
  match fuel, ws with
  | S fuel', _ :: _ => chunks fuel' (skipn 16 ws) (chunk st (firstn 16 ws))
  | _, _ => st
  end.

Definition digest (msg : Bytes) : list Z :=
  let ws := le_words (pad (map Z_of_byte msg)) in
  let st := chunks (length ws) ws init in
  le_bytes 4 (sa st) ++ le_bytes 4 (sb st) ++ le_bytes 4 (sc st) ++ le_bytes 4 (sd st).

Definition hex_digit (z : Z) : ascii :=
  ascii_of_N (Z.to_N (if z <? 10 then 48 + z else 87 + z)).

Definition hexdigest (msg : Bytes) : string :=
  string_of_list_ascii
    (flat_map (fun b => [hex_digit (b / 16); hex_digit (b mod 16)]) (digest msg)).

End MD5.

(** ** The injected layout document ([_create_html_content])

    The f-string of the source, cut at its two [{mermaid_code}] holes. *)

Definition dq : string := String (ascii_of_nat 34) EmptyString.

Definition html_head : string :=
  ("
        <!DOCTYPE html>
        <html>
        <head>
            <meta charset=" ++ dq ++ "utf-8" ++ dq ++ ">
            <meta name=" ++ dq ++ "viewport" ++ dq ++ " content=" ++ dq ++ "width=device-width, initial-scale=1" ++ dq ++ ">
            <style>
                body {
                    margin: 0;
                    padding: 20px;
                    font-family: Arial, sans-serif;
                    background: white;
                    min-height: 100vh;
                }
                #mermaid-container {
                    display: flex;
                    justify-content: center;
                    align-items: center;
                    min-height: 400px;
                }
                .mermaid {
                    background: white;
                }
                .error {
                    color: red;
                    font-weight: bold;
                    padding: 20px;
                    border: 2px solid red;
                    border-radius: 5px;
                    background: #ffe6e6;
                    max-width: 600px;
                }
                #status {
                    position: fixed;
                    top: 10px;
                    right: 10px;
                    padding: 5px 10px;
                    background: #f0f0f0;
                    border-radius: 3px;
                    font-size: 12px;
                }
            </style>
        </head>
        <body>
            <div id=" ++ dq ++ "status" ++ dq ++ ">Loading...</div>
            <div id=" ++ dq ++ "mermaid-container" ++ dq ++ ">
                <div class=" ++ dq ++ "mermaid" ++ dq ++ " id=" ++ dq ++ "diagram" ++ dq ++ ">
")%string.

Definition html_script : string :=
  ("
                </div>
            </div>
            
            <script src=" ++ dq ++ "https://cdn.jsdelivr.net/npm/mermaid@10.6.1/dist/mermaid.min.js" ++ dq ++ "></script>
            <script>
                console.log('Starting Mermaid initialization...');
                document.getElementById('status').textContent = 'Initializing...';
                
                // Wait for mermaid to be available
                function waitForMermaid() {
                    return new Promise((resolve, reject) => {
                        let attempts = 0;
                        const maxAttempts = 50;
                        
                        function check() {
                            attempts++;
                            if (typeof mermaid !== 'undefined') {
                                resolve();
                            } else if (attempts >= maxAttempts) {
                                reject(new Error('Mermaid failed to load'));
                            } else {
                                setTimeout(check, 100);
                            }
                        }
                        check();
                    });
                }
                
                async function initAndRender() {
                    try {
                        console.log('Waiting for Mermaid to load...');
                        await waitForMermaid();
                        
                        console.log('Initializing Mermaid...');
                        mermaid.initialize({
                            startOnLoad: false,
                            theme: 'default',
                            securityLevel: 'loose',
                            flowchart: {
                                useMaxWidth: false,
                                htmlLabels: true
                            },
                            sequence: {
                                useMaxWidth: false
                            },
                            class: {
                                useMaxWidth: false
                            }
                        });
                        
                        console.log('Rendering diagram...');
                        document.getElementById('status').textContent = 'Rendering...';
                        
                        const element = document.getElementById('diagram');
                        const diagramCode = `")%string.

Definition html_tail : string :=
  ("`;
                        
                        console.log('Diagram code:', diagramCode);
                        
                        const {svg} = await mermaid.render('generatedDiagram', diagramCode);
                        
                        element.innerHTML = svg;
                        document.getElementById('status').textContent = 'Ready';
                        console.log('Diagram rendered successfully');
                        
                        // Signal that rendering is complete
                        window.mermaidReady = true;
                        
                    } catch (error) {
                        console.error('Mermaid render error:', error);
                        document.getElementById('status').textContent = 'Error';
                        document.getElementById('mermaid-container').innerHTML = 
                            '<div class=" ++ dq ++ "error" ++ dq ++ ">Syntax Error: ' + error.message + '</div>';
                        window.mermaidError = error.message;
                    }
                }
                
                // Start when page is loaded
                if (document.readyState === 'loading') {
                    document.addEventListener('DOMContentLoaded', initAndRender);
                } else {
                    initAndRender();
                }
            </script>
        </body>
        </html>
        ")%string.

Definition _create_html_content (mermaid_code : Str) : Str :=
  py html_head ++ mermaid_code ++ py html_script ++ mermaid_code ++ py html_tail.

(** ** Playwright

    Handles are opaque identifiers chosen by the driver.  [Call T] is an
    awaited Playwright call whose value has type [T].  The value of
    [page.evaluate("window.mermaidError")] is [None] while the page has
    not set the variable, and otherwise the message the page stored in
    it, [error.message]; the value of [wait_for_function] is not used. *)

Definition Playwright : Type := nat.
Definition Browser : Type := nat.
Definition Page : Type := nat.
Definition ElementHandle : Type := nat.

(** The dictionary [{"x", "y", "width", "height"}] of [bounding_box()]
    and of the [clip] argument; its values are IEEE 754 doubles. *)
Record FloatRect : Type := mkRect {
  rect_x : float;
  rect_y : float;
  rect_width : float;
  rect_height : float
}.

Inductive Call : Type -> Type :=
| AsyncPlaywrightStart : Call Playwright
| ChromiumLaunch (pw : Playwright) (headless : bool) (args : list string) : Call Browser
| BrowserClose (b : Browser) : Call unit
| PlaywrightStop (pw : Playwright) : Call unit
| NewPage (b : Browser) : Call Page
| SetViewportSize (p : Page) (width height : Z) : Call unit
| SetContent (p : Page) (html : Str) : Call unit
| WaitForFunction (p : Page) (expression : string) (timeout : Z) : Call unit
| Evaluate (p : Page) (expression : string) : Call (option Str)
| QuerySelector (p : Page) (selector : string) : Call (option ElementHandle)
| BoundingBox (el : ElementHandle) : Call (option FloatRect)
| Screenshot (p : Page) (clip : FloatRect) (type : string) : Call Bytes
| PageClose (p : Page) : Call unit.

(** One awaited call with what it gave: a value or an exception. *)
Inductive Event : Type :=
| Ev {T : Type} (c : Call T) (r : Exn + T).

(** The browser side: any function of the calls made so far. *)
Definition Driver : Type := list Event -> forall T : Type, Call T -> Exn + T.

(** ** The renderer object and its world

    [browser], [playwright] and [cache] are the attributes of the
    [MermaidRenderer] instance ([playwright = None] stands for the
    attribute not being set); [log] is the history of Playwright calls. *)

Abbreviation RenderResult := (option Bytes * option Str)%type.

Record World : Type := mkWorld {
  browser : option Browser;
  playwright : option Playwright;
  cache : gmap string RenderResult;
  log : list Event
}.

(** [MermaidRenderer()] in a process that has made no call yet. *)
Definition new_renderer : World :=
  {| browser := None; playwright := None; cache := ∅; log := [] |}.

Definition with_browser (b : Browser) (w : World) : World :=
  {| browser := Some b; playwright := playwright w; cache := cache w; log := log w |}.

Definition with_playwright (pw : Playwright) (w : World) : World :=
  {| browser := browser w; playwright := Some pw; cache := cache w; log := log w |}.

Definition cache_insert (cache_key : string) (result : RenderResult) (w : World) : World :=
  {| browser := browser w; playwright := playwright w;
     cache := <[cache_key := result]> (cache w); log := log w |}.

Definition log_event (ev : Event) (w : World) : World :=
  {| browser := browser w; playwright := playwright w;
     cache := cache w; log := log w ++ [ev] |}.

(** ** Control flow

    A block of statements ends in one of three ways: it falls through to
    the next statement, it executes [return r], or it raises.  [L] is the
    type of the local variables the block shares with its handlers. *)

Inductive Ctl (R A : Type) : Type :=
| Next (a : A)
| Return (r : R)
| Raise (e : Exn).
Arguments Next {R A} a.
Arguments Return {R A} r.
Arguments Raise {R A} e.

Definition M (L R A : Type) : Type := L -> World -> Ctl R A * L * World.

#[global] Instance M_ret {L R} : MRet (M L R) :=
  fun A a l w => (Next a, l, w).

#[global] Instance M_bind {L R} : MBind (M L R) :=
  fun A B k m l w =>
    match m l w with
    | (Next a, l', w') => k a l' w'
    | (Return r, l', w') => (Return r, l', w')
    | (Raise e, l', w') => (Raise e, l', w')
    end.

Definition py_return {L R A} (r : R) : M L R A :=
  fun l w => (Return r, l, w).

Definition raise {L R A} (e : Exn) : M L R A :=
  fun l w => (Raise e, l, w).

(** A library call that touches neither the renderer nor the browser. *)
Definition lib {L R A} (r : Exn + A) : M L R A :=
  match r with
  | inl e => raise e
  | inr a => mret a
  end.

Definition get_local {L R} : M L R L :=
  fun l w => (Next l, l, w).

Definition set_local {L R} (l' : L) : M L R unit :=
  fun _ w => (Next tt, l', w).

Definition gets {L R A} (f : World -> A) : M L R A :=
  fun l w => (Next (f w), l, w).

Definition modify {L R} (f : World -> World) : M L R unit :=
  fun l w => (Next tt, l, f w).

(** [try: body except Exception as e: handler e] *)
Definition try_except {L R A} (body : M L R A) (handler : Exn -> M L R A) : M L R A :=
  fun l w =>
    match body l w with
    | (Raise e, l', w') => handler e l' w'
    | done => done
    end.

(** [try: body finally: final].  The [finally] block runs however the
    body ended; when it raises (or returns), that replaces the body's
    pending [return] or exception. *)
Definition try_finally {L R A} (body : M L R A) (final : M L R unit) : M L R A :=
  fun l w =>
    match body l w with
    | (done, l', w') =>
        match final l' w' with
        | (Next _, l'', w'') => (done, l'', w'')
        | (Return r, l'', w'') => (Return r, l'', w'')
        | (Raise e, l'', w'') => (Raise e, l'', w'')
        end
    end.

(** Calling a function: it runs on locals of its own; its [return r]
    is the value [Some r] of the call, falling off its end is [None]. *)
Definition invoke {L L' R R'} (callee : M L' R' unit) (locals : L') : M L R (option R') :=
  fun l w =>
    match callee locals w with
    | (Next _, _, w') => (Next None, l, w')
    | (Return r, _, w') => (Next (Some r), l, w')
    | (Raise e, _, w') => (Raise e, l, w')
    end.

(** What a call of a function gives its caller. *)
Definition call {L R} (f : M L R unit) (locals : L) (w : World) : Ctl R unit * World :=
  match f locals w with
  | (done, _, w') => (done, w')
  end.

(** ** Pillow

    The operations of [PIL.Image] that [_optimize_image] uses, each of
    which may raise.  [Image_paste bg im mask] is [bg] after
    [bg.paste(im, mask=mask)]; [Image_save im format optimize quality]
    is [output.getvalue()] after [im.save(output, ...)] on a fresh
    [BytesIO]. *)

Class Pillow : Type := {
  Image : Type;
  Image_open : Bytes -> Exn + Image;
  Image_mode : Image -> string;
  Image_size : Image -> Z * Z;
  Image_new : string -> Z * Z -> Z * Z * Z -> Exn + Image;
  Image_split : Image -> Exn + list Image;
  Image_paste : Image -> Image -> Image -> Exn + Image;
  Image_save : Image -> string -> bool -> Z -> Exn + Bytes
}.

Definition IndexError : Exn := Exception (py "tuple index out of range").

(** [self.browser.new_page()] with [self.browser] being [None]. *)
Definition AttributeError : Exn :=
  Exception (py "'NoneType' object has no attribute 'new_page'").

(** Python's [max(a, b)]: [b] when [b > a], else [a]. *)
Definition py_max (a b : float) : float :=
  if (a <? b)%float then b else a.

(** Truth value of what [page.evaluate] gave: [None] and the empty
    string are false. *)
Definition truthy (v : option Str) : bool :=
  match v with
  | Some (_ :: _) => true
  | _ => false
  end.

(** [f"{v}"] *)
Definition format (v : option Str) : Str :=
  match v with
  | Some s => s
  | None => py "None"
  end.

Section Renderer.

Context (driver : Driver) `{Pillow}.

(** [await c]: the driver answers, the call is logged. *)
Definition await {L R T} (c : Call T) : M L R T :=
  fun l w =>
    let r := driver (log w) T c in
    match r with
    | inl e => (Raise e, l, log_event (Ev c r) w)
    | inr v => (Next v, l, log_event (Ev c r) w)
    end.

Definition set_browser {L R} (b : Browser) : M L R unit :=
  modify (with_browser b).

Definition set_playwright {L R} (pw : Playwright) : M L R unit :=
  modify (with_playwright pw).

(** [self.cache[cache_key] = result] *)
Definition store {L R} (cache_key : string) (result : RenderResult) : M L R unit :=
  modify (cache_insert cache_key result).

(** [start()]: a failure to start Playwright or to launch Chromium is
    logged and raised again; [self.browser] is assigned only when the
    launch returned. *)
Definition start : M unit unit unit :=
  try_except
    (pw ← await AsyncPlaywrightStart;
     set_playwright pw;;
     b ← await (ChromiumLaunch pw true ["--no-sandbox"; "--disable-setuid-sandbox"]%string);
     set_browser b)
    (fun e => raise e).

(** [stop()]: closes the browser if there is one, and stops Playwright
    if [start()] got as far as creating it. *)
Definition stop : M unit unit unit :=
  b ← gets browser;
  match b with
  | Some b => await (BrowserClose b)
  | None => mret tt
  end;;
  pw ← gets playwright;
  match pw with
  | Some pw => await (PlaywrightStop pw)
  | None => mret tt
  end.

(** [hashlib.md5(mermaid_code.encode()).hexdigest()] *)
Definition _get_cache_key {L R} (mermaid_code : Str) : M L R string :=
  data ← lib (encode mermaid_code);
  mret (MD5.hexdigest data).

(** [_optimize_image]: flatten an alpha channel onto white, re-encode
    as PNG; on any exception, the bytes it was given.  The two branches
    on [image.mode == 'RGBA'] are the same in the source. *)
Definition _optimize_image (image_bytes : Bytes) : M unit Bytes unit :=
  try_except
    (image ← lib (Image_open image_bytes);
     image ← (if (String.eqb (Image_mode image) "RGBA" || String.eqb (Image_mode image) "LA")%string
              then
                background ← lib (Image_new "RGB" (Image_size image) (255, 255, 255));
                background ←
                  (if String.eqb (Image_mode image) "RGBA"
                   then
                     bands ← lib (Image_split image);
                     mask ← lib (from_option inr (inl IndexError) (last bands));
                     lib (Image_paste background image mask)
                   else
                     bands ← lib (Image_split image);
                     mask ← lib (from_option inr (inl IndexError) (last bands));
                     lib (Image_paste background image mask));
                mret background
              else mret image);
     output ← lib (Image_save image "PNG" true 85);
     py_return output)
    (fun e => py_return image_bytes).

(** [render_diagram].  The local variable [page] of the source is the
    local state of the block: the [finally] clause reads what the [try]
    body assigned.  The pair [(image_bytes, error_message)] is kept as a
    pair of options. *)
Definition render_diagram (mermaid_code : Str) : M (option Page) RenderResult unit :=
  b ← gets browser;
  match b with
  | None => py_return (None, Some (py "Renderer not initialized"))
  | Some _ =>
      cache_key ← _get_cache_key mermaid_code;
      hit ← gets (fun w => cache w !! cache_key);
      match hit with
      | Some cached => py_return cached
      | None =>
          set_local None;;
          try_finally
            (try_except
               (browser_now ← gets browser;
                page ← match browser_now with
                       | Some b => await (NewPage b)
                       | None => raise AttributeError
                       end;
                set_local (Some page);;
                await (SetViewportSize page 1200 800);;
                let html_content := _create_html_content mermaid_code in
                await (SetContent page html_content);;
                try_except
                  (await (WaitForFunction page
                            "window.mermaidReady === true || window.mermaidError !== undefined"
                            10000);;
                   error_message ← await (Evaluate page "window.mermaidError");
                   if truthy error_message then
                     let result := (None, Some (py "Mermaid error: " ++ format error_message)) in
                     store cache_key result;;
                     py_return result
                   else mret tt)
                  (fun e =>
                     let result := (None, Some (py "Failed to render diagram: timeout")) in
                     store cache_key result;;
                     py_return result);;
                svg_element ← await (QuerySelector page "#mermaid-container svg");
                match svg_element with
                | None =>
                    let result := (None, Some (py "Failed to find rendered diagram")) in
                    store cache_key result;;
                    py_return result
                | Some svg_element =>
                    bbox ← await (BoundingBox svg_element);
                    match bbox with
                    | None =>
                        let result := (None, Some (py "Failed to get diagram dimensions")) in
                        store cache_key result;;
                        py_return result
                    | Some bbox =>
                        let padding := 20%float in
                        screenshot_bytes ←
                          await (Screenshot page
                                   {| rect_x := py_max 0 (rect_x bbox - padding);
                                      rect_y := py_max 0 (rect_y bbox - padding);
                                      rect_width := rect_width bbox + 2 * padding;
                                      rect_height := rect_height bbox + 2 * padding |}
                                   "png");
                        optimized_bytes ← invoke (_optimize_image screenshot_bytes) tt;
                        let result := (optimized_bytes, None) in
                        store cache_key result;;
                        py_return result
                    end
                end)
               (fun e =>
                  let result := (None, Some (py "Rendering error: " ++ str_of_exn e)) in
                  store cache_key result;;
                  py_return result))
            (page ← get_local;
             match page with
             | Some page => await (PageClose page)
             | None => mret tt
             end)
      end
  end.

(** *** Histories of one renderer

    [follows w w']: [w'] is [w] after some calls of [start], [stop] and
    [render_diagram], each run to its end before the next begins.  The
    worlds the module can be in are those that follow
    [MermaidRenderer()]. *)

Inductive follows (w : World) : World -> Prop :=
| follows_refl : follows w w
| follows_start w' : follows w w' -> follows w (call start tt w').2
| follows_stop w' : follows w w' -> follows w (call stop tt w').2
| follows_render w' mermaid_code :
    follows w w' -> follows w (call (render_diagram mermaid_code) None w').2.

Definition reachable (w : World) : Prop := follows new_renderer w.

(** The same histories in which no call of [start] has succeeded:
    every [start] so far has raised. *)
Inductive never_started : World -> Prop :=
| ns_new : never_started new_renderer
| ns_start_failed w e :
    never_started w -> (call start tt w).1 = Raise e ->
    never_started (call start tt w).2
| ns_stop w : never_started w -> never_started (call stop tt w).2
| ns_render w mermaid_code :
    never_started w -> never_started (call (render_diagram mermaid_code) None w).2.

End Renderer.

(** ** Surface accounting

    The surfaces a history leaves open: [new_page()] returning [p] opens
    [p], requesting [p.close()] releases one [p]. *)

Fixpoint release (p : Page) (open : list Page) : list Page :=
  match open with
  | [] => []
  | q :: rest => if Nat.eqb p q then rest else q :: release p rest
  end.

Definition surface_step (open : list Page) (ev : Event) : list Page :=
  match ev with
  | Ev (NewPage _) (inr p) => p :: open
  | Ev (PageClose p) _ => release p open
  | _ => open
  end.

Definition open_surfaces (open : list Page) (history : list Event) : list Page :=
  fold_left surface_step history open.

(** The pages a history acquired, the clips it captured and the
    bounding boxes it was given. *)
Definition acquired (ev : Event) : option Page :=
  match ev with
  | Ev (NewPage _) (inr p) => Some p
  | _ => None
  end.

Definition close_request (ev : Event) : option Page :=
  match ev with
  | Ev (PageClose p) _ => Some p
  | _ => None
  end.

Definition screenshot_clip (ev : Event) : option FloatRect :=
  match ev with
  | Ev (Screenshot _ clip _) _ => Some clip
  | _ => None
  end.

Definition bounding_box (ev : Event) : option FloatRect :=
  match ev with
  | Ev (BoundingBox _) (inr (Some bbox)) => Some bbox
  | _ => None
  end.

(** The error signal [page.evaluate("window.mermaidError")] read, and
    the exception a [close()] raised. *)
Definition error_signal (ev : Event) : option Str :=
  match ev with
  | Ev (Evaluate _ _) (inr (Some m)) => Some m
  | _ => None
  end.

Definition close_fault (ev : Event) : option Exn :=
  match ev with
  | Ev (PageClose _) (inl e) => Some e
  | _ => None
  end.

(** The failure message an event decides, if it decides one: the
    taxonomy of the pipeline, read off the replies of the browser. *)
Definition verdict (ev : Event) : option Str :=
  match ev with
  | Ev (NewPage _) (inl e) => Some (py "Rendering error: " ++ str_of_exn e)
  | Ev (SetViewportSize _ _ _) (inl e) => Some (py "Rendering error: " ++ str_of_exn e)
  | Ev (SetContent _ _) (inl e) => Some (py "Rendering error: " ++ str_of_exn e)
  | Ev (WaitForFunction _ _ _) (inl _) => Some (py "Failed to render diagram: timeout")
  | Ev (Evaluate _ _) (inl _) => Some (py "Failed to render diagram: timeout")
  | Ev (Evaluate _ _) (inr (Some (c :: m))) => Some (py "Mermaid error: " ++ c :: m)
  | Ev (QuerySelector _ _) (inl e) => Some (py "Rendering error: " ++ str_of_exn e)
  | Ev (QuerySelector _ _) (inr None) => Some (py "Failed to find rendered diagram")
  | Ev (BoundingBox _) (inl e) => Some (py "Rendering error: " ++ str_of_exn e)
  | Ev (BoundingBox _) (inr None) => Some (py "Failed to get diagram dimensions")
  | Ev (Screenshot _ _ _) (inl e) => Some (py "Rendering error: " ++ str_of_exn e)
  | _ => None
  end.

(** The bounding box with 20 pixels added on every side, its origin
    clamped at 0. *)
Definition padded_clip (bbox : FloatRect) : FloatRect :=
  {| rect_x := py_max 0 (rect_x bbox - 20);
     rect_y := py_max 0 (rect_y bbox - 20);
     rect_width := rect_width bbox + 40;
     rect_height := rect_height bbox + 40 |}.

(** ** Results *)

(** Exactly one component of the pair is populated. *)
Definition exactly_one (r : RenderResult) : bool :=
  match r with
  | (Some _, None) => true
  | (None, Some _) => true
  | _ => false
  end.

Definition Failure (message : Str) : RenderResult := (None, Some message).
Definition Success (image : Bytes) : RenderResult := (Some image, None).

(** Every cached result has exactly one component populated. *)
Definition cache_ok (w : World) : Prop :=
  map_Forall (fun _ r => exactly_one r = true) (cache w).

(** What one run of the render pipeline on a cache miss looks like: [r]
    is the result it stored, [trace] the Playwright calls it made and
    [final] how the call ended. *)
Record miss_run (r : RenderResult) (trace : list Event)
    (final : Ctl RenderResult unit) : Prop := {
  run_exactly_one : exactly_one r = true;
  run_final :
    final = Return r \/ exists e, final = Raise e /\ omap close_fault trace = [e];
  run_returns : omap close_fault trace = [] -> final = Return r;
  run_surfaces : forall held, open_surfaces held trace = held;
  run_scoped : omap close_request trace = omap acquired trace;
  run_closes_last :
    forall p, p ∈ omap acquired trace ->
              exists reply, last trace = Some (Ev (PageClose p) reply);
  run_clip : omap screenshot_clip trace = padded_clip <$> omap bounding_box trace;
  run_error_signal :
    forall m, omap error_signal trace = [m] -> m <> [] ->
              r = Failure (py "Mermaid error: " ++ m);
  run_verdict : r.2 = head (omap verdict trace)
}.

(** The four ways through [render_diagram], as a view of what a call
    gives: not initialized, text that cannot be encoded, cache hit, and
    the pipeline run on a miss. *)
Inductive render_case (mermaid_code : Str) (w : World) :
    Ctl RenderResult unit * World -> Prop :=
| case_not_initialized :
    browser w = None ->
    render_case mermaid_code w (Return (Failure (py "Renderer not initialized")), w)
| case_unencodable b e :
    browser w = Some b ->
    encode mermaid_code = inl e ->
    render_case mermaid_code w (Raise e, w)
| case_hit b data cached :
    browser w = Some b ->
    encode mermaid_code = inr data ->
    cache w !! MD5.hexdigest data = Some cached ->
    render_case mermaid_code w (Return cached, w)
| case_miss b data r trace final :
    browser w = Some b ->
    encode mermaid_code = inr data ->
    cache w !! MD5.hexdigest data = None ->
    miss_run r trace final ->
    render_case mermaid_code w
      (final, mkWorld (browser w) (playwright w)
                      (<[MD5.hexdigest data := r]> (cache w)) (log w ++ trace)).

(** ** Weakest preconditions of blocks *)

Definition wp {L R A} (m : M L R A) (Q : Ctl R A -> L -> World -> Prop)
    (l : L) (w : World) : Prop :=
  match m l w with
  | (done, l', w') => Q done l' w'
  end.

(** ** Scripted browsers

    A driver that answers each kind of call with a fixed reply, whatever
    the history. *)

Record Script : Type := mkScript {
  on_start : Exn + Playwright;
  on_launch : Exn + Browser;
  on_new_page : Exn + Page;
  on_set_content : Exn + unit;
  on_wait : Exn + unit;
  on_evaluate : Exn + option Str;
  on_query : Exn + option ElementHandle;
  on_bbox : Exn + option FloatRect;
  on_screenshot : Exn + Bytes;
  on_close : Exn + unit
}.

Definition scripted (s : Script) : Driver :=
  fun _ T c =>
    match c in Call T return Exn + T with
    | AsyncPlaywrightStart => on_start s
    | ChromiumLaunch _ _ _ => on_launch s
    | BrowserClose _ => inr tt
    | PlaywrightStop _ => inr tt
    | NewPage _ => on_new_page s
    | SetViewportSize _ _ _ => inr tt
    | SetContent _ _ => on_set_content s
    | WaitForFunction _ _ _ => on_wait s
    | Evaluate _ _ => on_evaluate s
    | QuerySelector _ _ => on_query s
    | BoundingBox _ => on_bbox s
    | Screenshot _ _ _ => on_screenshot s
    | PageClose _ => on_close s
    end.

(** A browser in which the diagram renders. *)
Definition healthy : Script :=
  {| on_start := inr 1%nat;
     on_launch := inr 1%nat;
     on_new_page := inr 5%nat;
     on_set_content := inr tt;
     on_wait := inr tt;
     on_evaluate := inr None;
     on_query := inr (Some 9%nat);
     on_bbox := inr (Some (mkRect 8.5 120 300 200.25));
     on_screenshot := inr [x89; x50; x4e; x47];
     on_close := inr tt |}.

(** The layout library rejected the text with message [m]: the error
    container has replaced the diagram. *)
Definition layout_error (m : Str) : Script :=
  {| on_start := inr 1%nat;
     on_launch := inr 1%nat;
     on_new_page := inr 5%nat;
     on_set_content := inr tt;
     on_wait := inr tt;
     on_evaluate := inr (Some m);
     on_query := inr None;
     on_bbox := inr None;
     on_screenshot := inl (Exception (py "no element"));
     on_close := inr tt |}.

(** The diagram renders, then closing the page fails. *)
Definition close_fails : Script :=
  {| on_start := inr 1%nat;
     on_launch := inr 1%nat;
     on_new_page := inr 5%nat;
     on_set_content := inr tt;
     on_wait := inr tt;
     on_evaluate := inr None;
     on_query := inr (Some 9%nat);
     on_bbox := inr (Some (mkRect 8.5 120 300 200.25));
     on_screenshot := inr [x89; x50; x4e; x47];
     on_close := inl (Exception (py "Connection closed")) |}.

(** The browser cannot be launched. *)
Definition no_browser : Script :=
  {| on_start := inr 1%nat;
     on_launch := inl (Exception (py "Executable doesn't exist"));
     on_new_page := inl (Exception (py "no browser"));
     on_set_content := inr tt;
     on_wait := inr tt;
     on_evaluate := inr None;
     on_query := inr None;
     on_bbox := inr None;
     on_screenshot := inl (Exception (py "no browser"));
     on_close := inr tt |}.

(** A Pillow that understands nothing but a four-byte signature, which
    it takes for an opaque RGB image. *)
Definition signature_only : Pillow :=
  {| Image := Bytes;
     Image_open := fun b =>
       match b with
       | [x89; x50; x4e; x47] => inr b
       | _ => inl (Exception (py "cannot identify image file"))
       end;
     Image_mode := fun _ => "RGB"%string;
     Image_size := fun _ => (1, 1);
     Image_new := fun _ _ _ => inl (Exception (py "unsupported"));
     Image_split := fun _ => inr [];
     Image_paste := fun bg _ _ => inr bg;
     Image_save := fun im _ _ _ => inr (im ++ [x0a]) |}.

(** The renderer after a successful [start()] against a healthy browser. *)
Definition started : World :=
  (call (start (scripted healthy)) tt new_renderer).2.

(** The renderer after a [start()] that could not launch the browser. *)
Definition start_failed : World :=
  (call (start (scripted no_browser)) tt new_renderer).2.

Definition graph_td : Str := py "graph TD
A-->B".

Definition graph_td_utf8 : Bytes :=
  [x67; x72; x61; x70; x68; x20; x54; x44; x0a; x41; x2d; x2d; x3e; x42].

(** A message of the layout library, and the started renderer after the
    library rejected [graph_td] with it. *)
Definition parse_error : Str := py "Parse error on line 1".

Definition rejected : World :=
  (call (render_diagram (scripted (layout_error parse_error)) (H := signature_only)
           graph_td) None started).2.

(** The started renderer after rendering [graph_td] once. *)
Definition rendered : World :=
  (call (render_diagram (scripted healthy) (H := signature_only) graph_td) None started).2.

(** ... and after another diagram and a [stop()]. *)
Definition later_on : World :=
  (call (stop (scripted healthy)) tt
     (call (render_diagram (scripted healthy) (H := signature_only) (py "graph LR")) None
        rendered).2).2.

(** ** What the log tells about a call

    More readers of single events, used to state which requests a call
    made. *)

Definition viewport_set (ev : Event) : option (Page * Z * Z) :=
  match ev with
  | Ev (SetViewportSize p width height) _ => Some (p, width, height)
  | _ => None
  end.

Definition content_set (ev : Event) : option (Page * Str) :=
  match ev with
  | Ev (SetContent p html) _ => Some (p, html)
  | _ => None
  end.

Definition screenshot_reply (ev : Event) : option Bytes :=
  match ev with
  | Ev (Screenshot _ _ _) (inr shot) => Some shot
  | _ => None
  end.

Definition fault_of (ev : Event) : option Exn :=
  match ev with
  | Ev _ (inl e) => Some e
  | _ => None
  end.

Definition browser_closed (ev : Event) : option Browser :=
  match ev with
  | Ev (BrowserClose b) _ => Some b
  | _ => None
  end.

Definition browser_close_fault (ev : Event) : option Exn :=
  match ev with
  | Ev (BrowserClose _) (inl e) => Some e
  | _ => None
  end.

Definition playwright_started (ev : Event) : option Playwright :=
  match ev with
  | Ev AsyncPlaywrightStart (inr pw) => Some pw
  | _ => None
  end.

Definition playwright_stopped (ev : Event) : option Playwright :=
  match ev with
  | Ev (PlaywrightStop pw) _ => Some pw
  | _ => None
  end.

Definition launched (ev : Event) : option Browser :=
  match ev with
  | Ev (ChromiumLaunch _ _ _) (inr b) => Some b
  | _ => None
  end.

(** The requests of a call that missed the cache: what it asked of
    browser [b] for the text, and where the image of its result [r]
    comes from. *)
Record miss_shape `{Pillow} (mermaid_code : Str) (b : Browser) (r : RenderResult)
    (trace : list Event) : Prop := {
  shape_first : exists reply rest, trace = Ev (NewPage b) reply :: rest;
  shape_budget : (length trace <= 9)%nat;
  shape_one_page : (length (omap acquired trace) <= 1)%nat;
  shape_one_shot : (length (omap screenshot_clip trace) <= 1)%nat;
  shape_viewport :
    omap viewport_set trace = (fun p => (p, 1200, 800)) <$> omap acquired trace;
  shape_content :
    forall p html, (p, html) ∈ omap content_set trace ->
                   p ∈ omap acquired trace /\ html = _create_html_content mermaid_code;
  shape_image :
    forall image, r.1 = Some image ->
      exists shot, omap screenshot_reply trace = [shot] /\
                   (image = shot \/ exists im, Image_save im "PNG" true 85 = inr image)
}.

(** The look of a cache key: 32 lower-case hexadecimal digits. *)
Definition is_hex_digit (a : ascii) : bool :=
  existsb (Ascii.eqb a) (list_ascii_of_string "0123456789abcdef").

Definition is_cache_key (k : string) : Prop :=
  String.length k = 32%nat /\ forallb is_hex_digit (list_ascii_of_string k) = true.

(** A browser like [healthy] whose [close()] faults. *)
Definition close_refused : Driver :=
  fun history T c =>
    match c in Call T return Exn + T with
    | BrowserClose _ => inl (Exception (py "Target closed"))
    | c => scripted healthy history _ c
    end.

(** * The request adapter ([bot.py])

    The two aiogram handlers, the upload helper and [main].  Telegram is
    embedded like the browser: typed requests, answered by an arbitrary
    [Telegram] that sees the history of the requests made so far.  The
    module's globals ([image_cache] and the history of [bot]) are the
    state the functions of [bot.py] share; they call the one [renderer]
    of [mermaid_renderer.py], whose state is the [World].

    Left out: the calls to [logger] (but not the evaluation of their
    arguments, which can raise), the [throttler] (it only delays), and
    [start_command], which sends one fixed text. *)

(** ** More of Python's [str] and [int] *)

(** [str(n)] for an [int]. *)
Definition repr_int (n : Z) : string := NilZero.string_of_int (Z.to_int n).

Definition str_of_int (n : Z) : Str := py (repr_int n).

(** [c.isspace()]: the code points [str.strip()] removes. *)
Definition isspace (c : N) : bool :=
  ((0x9 <=? c) && (c <=? 0xD) || (0x1C <=? c) && (c <=? 0x20) ||
   (c =? 0x85) || (c =? 0xA0) || (c =? 0x1680) ||
   (0x2000 <=? c) && (c <=? 0x200A) ||
   (c =? 0x2028) || (c =? 0x2029) || (c =? 0x202F) || (c =? 0x205F) ||
   (c =? 0x3000))%N.

Fixpoint lstrip (s : Str) : Str :=
  match s with
  | c :: rest => if isspace c then lstrip rest else s
  | [] => []
  end.

Definition rstrip (s : Str) : Str := rev (lstrip (rev s)).

Definition strip (s : Str) : Str := rstrip (lstrip s).

(** [s.startswith('/')] *)
Definition starts_with_slash (s : Str) : bool :=
  match s with
  | c :: _ => (c =? 0x2F)%N
  | [] => false
  end.

Definition nl : Str := [0xA%N].

(** ** aiogram's objects *)

Record BufferedInputFile : Type := mkFile { file : Bytes; filename : Str }.

(** What [send_photo] and [answer] return: [photo] is the list of the
    [file_id]s of the photo's sizes, when the message has a photo. *)
Record SentMessage : Type := mkSent {
  message_id : Z;
  photo : option (list Str)
}.

Inductive InlineQueryResult : Type :=
| InlineQueryResultCachedPhoto (id photo_file_id : Str)
| InlineQueryResultArticle (id title description message_text : Str).

(** [inline_query.query] and [inline_query.from_user.id] *)
Record InlineQuery : Type := mkInlineQuery { query : Str; query_user : Z }.

(** [message.text], [message.chat.id] and, when the message has a
    sender, [message.from_user.id] *)
Record Message : Type := mkMessage {
  text : Str;
  chat : Z;
  from_user : option Z
}.

Inductive TgCall : Type -> Type :=
| SendPhoto (chat_id : Z) (photo : BufferedInputFile) (caption : Str)
    (disable_notification : bool) : TgCall SentMessage
| DeleteMessage (chat_id message_id : Z) : TgCall bool
| AnswerInlineQuery (q : InlineQuery) (results : list InlineQueryResult)
    (cache_time : Z) : TgCall bool
| SendChatAction (chat_id : Z) (action : string) : TgCall bool
| MessageAnswer (m : Message) (text : Str) : TgCall SentMessage
| MessageAnswerPhoto (m : Message) (photo : BufferedInputFile) : TgCall SentMessage
| SessionClose : TgCall unit.

Inductive TgEvent : Type :=
| TgEv {T : Type} (c : TgCall T) (r : Exn + T).

(** The Telegram side: any function of the calls made so far. *)
Definition Telegram : Type := list TgEvent -> forall T : Type, TgCall T -> Exn + T.

(** The globals of [bot.py]: [image_cache], and the history of the calls
    made through [bot] and the update objects. *)
Record Bot : Type := mkBot {
  image_cache : gmap string Str;
  sent : list TgEvent
}.

Definition new_bot : Bot := {| image_cache := ∅; sent := [] |}.

Definition sent_event (ev : TgEvent) (g : Bot) : Bot :=
  {| image_cache := image_cache g; sent := sent g ++ [ev] |}.

Definition image_cache_insert (cache_key : string) (file_id : Str) (g : Bot) : Bot :=
  {| image_cache := <[cache_key := file_id]> (image_cache g); sent := sent g |}.

(** Calling a function of the same module: it shares the globals. *)
Definition invoke_module {G R R'} (callee : M G R' unit) : M G R (option R') :=
  fun g w =>
    match callee g w with
    | (Next _, g', w') => (Next None, g', w')
    | (Return r, g', w') => (Next (Some r), g', w')
    | (Raise e, g', w') => (Raise e, g', w')
    end.

Definition TypeError_subscript : Exn :=
  Exception (py "'NoneType' object is not subscriptable").

Definition TypeError_unpack : Exn :=
  Exception (py "cannot unpack non-iterable NoneType object").

Definition IndexError_list : Exn := Exception (py "list index out of range").

Definition AttributeError_id : Exn :=
  Exception (py "'NoneType' object has no attribute 'id'").

(** [message.photo[-1].file_id] *)
Definition largest_photo (message : SentMessage) : Exn + Str :=
  match photo message with
  | None => inl TypeError_subscript
  | Some sizes => from_option inr (inl IndexError_list) (last sizes)
  end.

(** ** The texts of the replies *)

Definition upload_caption : Str :=
  [0x1F504%N] ++ py " Preparing image for inline mode...".

Definition help_article : InlineQueryResult :=
  InlineQueryResultArticle
    (py "help")
    ([0x1F4DD%N] ++ py " Enter Mermaid diagram code")
    (py "Type your Mermaid diagram syntax to render it")
    ([0x2139; 0xFE0F]%N ++ py " <b>How to use InMermaid Bot:</b>" ++ nl ++ nl ++
     py "1. Type <code>@inmermaidbot</code> followed by your Mermaid code" ++ nl ++
     py "2. Select the rendered image to send" ++ nl ++
     py "3. Or send code directly to @inmermaidbot for higher quality" ++ nl ++ nl ++
     py "<b>Example:</b>" ++ nl ++
     py "<code>@inmermaidbot graph TD" ++ nl ++
     py "    A[Start] --> B[Process]" ++ nl ++
     py "    B --> C[End]</code>").

Definition valid_article (diagram_id query_text : Str) : InlineQueryResult :=
  InlineQueryResultArticle
    diagram_id
    ([0x2705%N] ++ py " Valid Mermaid Diagram")
    (py "Share this diagram code (" ++ str_of_int (Z.of_nat (length query_text)) ++ py " chars)")
    ([0x1F3A8%N] ++ py " <b>Mermaid Diagram</b>" ++ nl ++ nl ++
     py "<code>" ++ query_text ++ py "</code>" ++ nl ++ nl ++
     [0x1F4A1%N] ++ py " <i>Send this code to @inmermaidbot to get the rendered image!</i>").

Definition error_article (error_message query_text : Str) : InlineQueryResult :=
  InlineQueryResultArticle
    (py "error")
    ([0x274C%N] ++ py " Syntax Error")
    (take 100 error_message)
    ([0x274C%N] ++ py " <b>Mermaid Syntax Error:</b>" ++ nl ++ nl ++
     error_message ++ nl ++ nl ++
     py "<b>Your code:</b>" ++ nl ++ py "<code>" ++ query_text ++ py "</code>" ++ nl ++ nl ++
     [0x1F4A1%N] ++ py " <i>Check your syntax at https://mermaid.live/</i>").

Definition system_error_article (e : Exn) : InlineQueryResult :=
  InlineQueryResultArticle
    (py "system_error")
    ([0x274C%N] ++ py " System Error")
    (py "Internal error occurred")
    ([0x274C%N] ++ py " <b>System Error:</b>" ++ nl ++ nl ++ str_of_exn e ++ nl ++ nl ++
     py "Please try again or contact support.").

Definition render_error_text (error_message : option Str) (mermaid_code : Str) : Str :=
  [0x274C%N] ++ py " <b>Error rendering diagram:</b>" ++ nl ++ nl ++
  format error_message ++ nl ++ nl ++
  py "<b>Your code:</b>" ++ nl ++ py "<code>" ++ mermaid_code ++ py "</code>" ++ nl ++ nl ++
  [0x1F4A1%N] ++ py " <i>Check your syntax at https://mermaid.live/</i>".

Definition system_error_text (e : Exn) : Str :=
  [0x274C%N] ++ py " <b>System error:</b> " ++ str_of_exn e ++ nl ++ nl ++
  py "Please try again or contact support.".

(** ** The functions of [bot.py] *)

Section Adapter.

Context (driver : Driver) `{Pillow} (telegram : Telegram).

(** [hash(s)] for a [str]: fixed for the life of the process. *)
Context (py_hash : Str -> Z).

(** [dp.start_polling(bot)]: aiogram's dispatch loop, which runs the
    handlers; whatever it does to the globals and the renderer before it
    returns or raises. *)
Context (start_polling : M Bot unit unit).

(** An awaited call of the Telegram API. *)
Definition tg {R T} (c : TgCall T) : M Bot R T :=
  fun g w =>
    let r := telegram (sent g) T c in
    match r with
    | inl e => (Raise e, sent_event (TgEv c r) g, w)
    | inr v => (Next v, sent_event (TgEv c r) g, w)
    end.

Definition upload_image_to_telegram (image_bytes : Bytes) (diagram_code : Str)
    (user_id : Z) : M Bot (option Str) unit :=
  try_except
    (let diagram_hash := py_hash diagram_code mod 1000000 in
     let filename := py "mermaid_" ++ str_of_int diagram_hash ++ py ".png" in
     let cache_key := repr_int diagram_hash in
     g ← get_local;
     match image_cache g !! cache_key with
     | Some cached => py_return (Some cached)
     | None =>
         let photo := mkFile image_bytes filename in
         file_id ←
           try_except
             (message ← tg (SendPhoto user_id photo upload_caption true);
              file_id ← lib (largest_photo message);
              tg (DeleteMessage user_id (message_id message));;
              mret file_id)
             (fun e => py_return None);
         g ← get_local;
         set_local (image_cache_insert cache_key file_id g);;
         py_return (Some file_id)
     end)
    (fun e => py_return None).

Definition handle_inline_query (inline_query : InlineQuery) : M Bot unit unit :=
  let query_text := strip (query inline_query) in
  try_except
    (match query_text with
     | [] =>
         tg (AnswerInlineQuery inline_query [help_article] 300);;
         py_return tt
     | _ :: _ =>
         rendered ← invoke (render_diagram driver query_text) None;
         match rendered with
         | None => raise TypeError_unpack
         | Some (image_bytes, error_message) =>
             results ←
               match image_bytes with
               | Some (b :: bs) =>
                   let diagram_id :=
                     py "mermaid_" ++ str_of_int (py_hash query_text mod 1000000) in
                   file_id ← invoke_module
                               (upload_image_to_telegram (b :: bs) query_text
                                  (query_user inline_query));
                   match mjoin file_id with
                   | Some (c :: rest) =>
                       mret [InlineQueryResultCachedPhoto diagram_id (c :: rest)]
                   | _ => mret [valid_article diagram_id query_text]
                   end
               | _ => mret []
               end;
             let results :=
               if truthy error_message
               then results ++ [error_article (format error_message) query_text]
               else results in
             tg (AnswerInlineQuery inline_query results 60);;
             mret tt
         end
     end)
    (fun e =>
       tg (AnswerInlineQuery inline_query [system_error_article e] 10);;
       mret tt).

Definition handle_mermaid_code (message : Message) : M Bot unit unit :=
  let mermaid_code := strip (text message) in
  if match mermaid_code with [] => true | _ => starts_with_slash mermaid_code end
  then py_return tt
  else
    tg (SendChatAction (chat message) "upload_photo");;
    try_except
      (_ ← lib (from_option inr (inl AttributeError_id) (from_user message));
       rendered ← invoke (render_diagram driver mermaid_code) None;
       match rendered with
       | None => raise TypeError_unpack
       | Some (image_bytes, error_message) =>
           match image_bytes with
           | Some (b :: bs) =>
               let photo := mkFile (b :: bs) (py "mermaid_diagram.png") in
               tg (MessageAnswerPhoto message photo);;
               _ ← lib (from_option inr (inl AttributeError_id) (from_user message));
               mret tt
           | _ =>
               tg (MessageAnswer message (render_error_text error_message mermaid_code));;
               mret tt
           end
       end)
      (fun e =>
         tg (MessageAnswer message (system_error_text e));;
         mret tt).

(** [main()]: both [except] clauses only log. *)
Definition main : M Bot unit unit :=
  try_finally
    (try_except
       (invoke (start driver) tt;;
        invoke_module start_polling;;
        mret tt)
       (fun e => mret tt))
    (invoke (stop driver) tt;;
     tg SessionClose).

End Adapter.

(** ** What the history of the bot tells *)

Definition tg_fault (ev : TgEvent) : option Exn :=
  match ev with
  | TgEv _ (inl e) => Some e
  | _ => None
  end.

Definition answer_sent (ev : TgEvent) : option (list InlineQueryResult * Z) :=
  match ev with
  | TgEv (AnswerInlineQuery _ results cache_time) _ => Some (results, cache_time)
  | _ => None
  end.

(** A Telegram whose calls all return. *)
Definition reliable (telegram : Telegram) : Prop :=
  forall history T (c : TgCall T), exists v, telegram history T c = inr v.

(** The reply of [handle_mermaid_code] to a message from a sender, by
    the way the render ended. *)
Definition reply_to (message : Message) (mermaid_code : Str)
    (rendered : Ctl RenderResult unit) : TgCall SentMessage :=
  match rendered with
  | Return (Some (b :: bs), _) =>
      MessageAnswerPhoto message (mkFile (b :: bs) (py "mermaid_diagram.png"))
  | Return (_, error_message) =>
      MessageAnswer message (render_error_text error_message mermaid_code)
  | Raise e => MessageAnswer message (system_error_text e)
  | Next _ => MessageAnswer message (system_error_text TypeError_unpack)
  end.

(** The result offered for a rendered image, by what the upload gave. *)
Definition image_result (diagram_id query_text : Str) (file_id : option Str) :
    InlineQueryResult :=
  match file_id with
  | Some (c :: rest) => InlineQueryResultCachedPhoto diagram_id (c :: rest)
  | _ => valid_article diagram_id query_text
  end.

(** ** Scripted Telegrams *)

Record TgScript : Type := mkTgScript {
  on_send_photo : Exn + SentMessage;
  on_delete : Exn + bool;
  on_answer_query : Exn + bool;
  on_chat_action : Exn + bool;
  on_message_answer : Exn + SentMessage;
  on_session_close : Exn + unit
}.

Definition tg_scripted (s : TgScript) : Telegram :=
  fun _ T c =>
    match c in TgCall T return Exn + T with
    | SendPhoto _ _ _ _ => on_send_photo s
    | DeleteMessage _ _ => on_delete s
    | AnswerInlineQuery _ _ _ => on_answer_query s
    | SendChatAction _ _ => on_chat_action s
    | MessageAnswer _ _ => on_message_answer s
    | MessageAnswerPhoto _ _ => on_send_photo s
    | SessionClose => on_session_close s
    end.

Definition file_id_small : Str := py "AgACAgIAAxkDAAIBs".

Definition file_id_large : Str := py "AgACAgIAAxkDAAIBy".

(** Every call returns; a sent photo has two sizes. *)
Definition obliging : TgScript :=
  {| on_send_photo := inr (mkSent 1001 (Some [file_id_small; file_id_large]));
     on_delete := inr true;
     on_answer_query := inr true;
     on_chat_action := inr true;
     on_message_answer := inr (mkSent 1002 None);
     on_session_close := inr tt |}.

(** The temporary message cannot be deleted. *)
Definition delete_refused : TgScript :=
  {| on_send_photo := inr (mkSent 1001 (Some [file_id_small; file_id_large]));
     on_delete := inl (Exception (py "Bad Request: message can't be deleted"));
     on_answer_query := inr true;
     on_chat_action := inr true;
     on_message_answer := inr (mkSent 1002 None);
     on_session_close := inr tt |}.

(** No call gets through. *)
Definition unreachable : TgScript :=
  {| on_send_photo := inl (Exception (py "Bad Gateway"));
     on_delete := inl (Exception (py "Bad Gateway"));
     on_answer_query := inl (Exception (py "Bad Gateway"));
     on_chat_action := inl (Exception (py "Bad Gateway"));
     on_message_answer := inl (Exception (py "Bad Gateway"));
     on_session_close := inl (Exception (py "Bad Gateway")) |}.

(** A stand-in for [hash], under which texts of one length collide. *)
Definition length_hash (s : Str) : Z := Z.of_nat (length s).

(** A dispatch loop that receives nothing. *)
Definition idle_polling : M Bot unit unit := mret tt.

Definition a_query : InlineQuery := mkInlineQuery (py "  graph TD
A-->B ") 77.

Definition a_message : Message := mkMessage (py "graph TD
A-->B
") 77 (Some 77).

Definition a_command : Message := mkMessage (py " /start") 77 (Some 77).

Definition blank_query : InlineQuery := mkInlineQuery (py "   ") 77.

(** The globals after the image of a text of eight characters was
    uploaded. *)
Definition uploaded : Bot :=
  (upload_image_to_telegram (tg_scripted obliging) length_hash
     [x89; x50] (py "graph TD") 77 new_bot new_renderer).1.2.

(** * Properties *)

Arguments py : simpl never.
Arguments MD5.hexdigest : simpl never.
Arguments _create_html_content : simpl never.

(** ** The digest agrees with RFC 1321's test vectors *)

Example md5_empty :
  MD5.hexdigest [] = "d41d8cd98f00b204e9800998ecf8427e"%string.
Proof. vm_compute. reflexivity. Qed.

Example md5_abc :
  MD5.hexdigest [x61; x62; x63] = "900150983cd24fb0d6963f7d28e17f72"%string.
Proof. vm_compute. reflexivity. Qed.

Example md5_two_blocks :
  match encode (py "12345678901234567890123456789012345678901234567890123456789012345678901234567890") with
  | inr data => MD5.hexdigest data = "57edf4a22be3c955ac49da2e2107b67a"%string
  | inl _ => False
  end.
Proof. vm_compute. reflexivity. Qed.

Example encode_utf8 :
  encode [0x41; 0xE9; 0x20AC; 0x1F600]%N
  = inr [x41; xc3; xa9; xe2; x82; xac; xf0; x9f; x98; x80].
Proof. vm_compute. reflexivity. Qed.

Example encode_lone_surrogate :
  encode [0x41; 0xD800]%N = inl UnicodeEncodeError.
Proof. reflexivity. Qed.

(** ** Rules for blocks *)

Section Rules.
Context {L R : Type}.

Lemma wp_ret {A} (a : A) (Q : Ctl R A -> L -> World -> Prop) l w :
  Q (Next a) l w -> wp (mret a) Q l w.
Proof. exact id. Qed.

Lemma wp_return {A} (r : R) (Q : Ctl R A -> L -> World -> Prop) l w :
  Q (Return r) l w -> wp (py_return r) Q l w.
Proof. exact id. Qed.

Lemma wp_raise {A} (e : Exn) (Q : Ctl R A -> L -> World -> Prop) l w :
  Q (Raise e) l w -> wp (raise e) Q l w.
Proof. exact id. Qed.

Lemma wp_bind {A B} (m : M L R A) (k : A -> M L R B) Q l w :
  wp m (fun done l' w' =>
          match done with
          | Next a => wp (k a) Q l' w'
          | Return r => Q (Return r) l' w'
          | Raise e => Q (Raise e) l' w'
          end) l w ->
  wp (m ≫= k) Q l w.
Proof.
  unfold wp, mbind, M_bind. destruct (m l w) as [[[a|r|e] l'] w']; auto.
Qed.

Lemma wp_lib {A} (r : Exn + A) (Q : Ctl R A -> L -> World -> Prop) l w :
  match r with inl e => Q (Raise e) l w | inr a => Q (Next a) l w end ->
  wp (lib r) Q l w.
Proof. destruct r; exact id. Qed.

Lemma wp_gets {A} (f : World -> A) (Q : Ctl R A -> L -> World -> Prop) l w :
  Q (Next (f w)) l w -> wp (gets f) Q l w.
Proof. exact id. Qed.

Lemma wp_modify (f : World -> World) (Q : Ctl R unit -> L -> World -> Prop) l w :
  Q (Next tt) l (f w) -> wp (modify f) Q l w.
Proof. exact id. Qed.

Lemma wp_get_local (Q : Ctl R L -> L -> World -> Prop) l w :
  Q (Next l) l w -> wp get_local Q l w.
Proof. exact id. Qed.

Lemma wp_set_local (l' : L) (Q : Ctl R unit -> L -> World -> Prop) l w :
  Q (Next tt) l' w -> wp (set_local l') Q l w.
Proof. exact id. Qed.

Lemma wp_try_except {A} (body : M L R A) handler Q l w :
  wp body (fun done l' w' =>
             match done with
             | Raise e => wp (handler e) Q l' w'
             | _ => Q done l' w'
             end) l w ->
  wp (try_except body handler) Q l w.
Proof.
  unfold wp, try_except. destruct (body l w) as [[[a|r|e] l'] w']; auto.
Qed.

Lemma wp_try_finally {A} (body : M L R A) final Q l w :
  wp body (fun done l' w' =>
             wp final (fun fin l'' w'' =>
                         match fin with
                         | Next _ => Q done l'' w''
                         | Return r => Q (Return r) l'' w''
                         | Raise e => Q (Raise e) l'' w''
                         end) l' w') l w ->
  wp (try_finally body final) Q l w.
Proof.
  unfold wp, try_finally. destruct (body l w) as [[done l'] w'].
  destruct (final l' w') as [[[a|r|e] l''] w'']; auto.
Qed.

Lemma wp_await (driver : Driver) {T} (c : Call T)
    (Q : Ctl R T -> L -> World -> Prop) l w :
  (forall e, driver (log w) T c = inl e ->
             Q (Raise e) l (log_event (Ev c (inl e)) w)) ->
  (forall v, driver (log w) T c = inr v ->
             Q (Next v) l (log_event (Ev c (inr v)) w)) ->
  wp (await driver c) Q l w.
Proof.
  intros He Hv. unfold wp, await.
  destruct (driver (log w) T c) as [e|v] eqn:E; auto.
Qed.

Lemma wp_call (f : M L R unit) (P : Ctl R unit * World -> Prop) l w :
  wp f (fun done _ w' => P (done, w')) l w -> P (call f l w).
Proof.
  unfold wp, call. destruct (f l w) as [[done l'] w']. exact id.
Qed.

End Rules.

(** ** The post-processor always returns *)

Section Optimize.
Context `{Pillow}.

Lemma optimize_returns (image_bytes : Bytes) (w : World) :
  exists out,
    _optimize_image image_bytes tt w = (Return out, tt, w) /\
    (out = image_bytes \/ exists im, Image_save im "PNG" true 85 = inr out).
Proof.
  unfold _optimize_image, try_except, lib, py_return, raise, mbind, mret, M_bind, M_ret.
  destruct (Image_open image_bytes) as [e|im]; simpl; eauto.
  destruct (_ || _)%bool; simpl.
  - destruct (Image_new _ _ _) as [e|bg]; simpl; eauto.
    destruct (String.eqb _ _); simpl.
    all: destruct (Image_split im) as [e|bands]; simpl; eauto.
    all: destruct (last bands); simpl; eauto.
    all: destruct (Image_paste _ _ _); simpl; eauto.
    all: destruct (Image_save _ _ _ _) eqn:Hsave; simpl; eauto.
  - destruct (Image_save _ _ _ _) eqn:Hsave; simpl; eauto.
Qed.

Lemma wp_invoke_optimize {L R} (image_bytes : Bytes)
    (Q : Ctl R (option Bytes) -> L -> World -> Prop) l w :
  (forall out, Q (Next (Some out)) l w) ->
  wp (invoke (_optimize_image image_bytes) tt) Q l w.
Proof.
  intros HQ. unfold wp, invoke.
  destruct (optimize_returns image_bytes w) as [out [-> _]]. apply HQ.
Qed.

End Optimize.

(** One statement of a block, symbolically. *)
Ltac wp_step :=
  lazymatch goal with
  | |- wp (mbind _ _) _ _ _ => apply wp_bind
  | |- wp (mret _) _ _ _ => apply wp_ret
  | |- wp (py_return _) _ _ _ => apply wp_return
  | |- wp (raise _) _ _ _ => apply wp_raise
  | |- wp (lib _) _ _ _ => apply wp_lib
  | |- wp (gets _) _ _ _ => apply wp_gets
  | |- wp (store _ _) _ _ _ => apply wp_modify
  | |- wp (set_browser _) _ _ _ => apply wp_modify
  | |- wp (set_playwright _) _ _ _ => apply wp_modify
  | |- wp (modify _) _ _ _ => apply wp_modify
  | |- wp get_local _ _ _ => apply wp_get_local
  | |- wp (set_local _) _ _ _ => apply wp_set_local
  | |- wp (try_except _ _) _ _ _ => apply wp_try_except
  | |- wp (try_finally _ _) _ _ _ => apply wp_try_finally
  | |- wp (invoke (_optimize_image _) _) _ _ _ =>
      apply wp_invoke_optimize; intros ?out
  | |- wp (await _ _) _ _ _ =>
      apply wp_await; [intros ?e ?Hreply | intros ?v ?Hreply]
  | |- wp (match ?x with _ => _ end) _ _ _ => destruct x eqn:?
  | |- wp (let _ := _ in _) _ _ _ => cbv zeta
  end;
  unfold log_event, cache_insert, with_browser, with_playwright;
  cbn [browser playwright cache log].

(** ** The four ways through [render_diagram] *)

Section Pipeline.
Context (driver : Driver) `{Pillow}.

Lemma render_not_initialized (mermaid_code : Str) (w : World) :
  browser w = None ->
  call (render_diagram driver mermaid_code) None w
  = (Return (Failure (py "Renderer not initialized")), w).
Proof.
  intros Hb. apply (wp_call _ (fun o => o = _)).
  unfold render_diagram. apply wp_bind, wp_gets. rewrite Hb.
  apply wp_return. reflexivity.
Qed.

Lemma render_unencodable (mermaid_code : Str) (w : World) b e :
  browser w = Some b ->
  encode mermaid_code = inl e ->
  call (render_diagram driver mermaid_code) None w = (Raise e, w).
Proof.
  intros Hb He. apply (wp_call _ (fun o => o = _)).
  unfold render_diagram, _get_cache_key. apply wp_bind, wp_gets. rewrite Hb.
  do 2 apply wp_bind. rewrite He. apply wp_lib. reflexivity.
Qed.

Lemma render_hit (mermaid_code : Str) (w : World) b data cached :
  browser w = Some b ->
  encode mermaid_code = inr data ->
  cache w !! MD5.hexdigest data = Some cached ->
  call (render_diagram driver mermaid_code) None w = (Return cached, w).
Proof.
  intros Hb He Hc. apply (wp_call _ (fun o => o = _)).
  unfold render_diagram, _get_cache_key. apply wp_bind, wp_gets. rewrite Hb.
  do 2 apply wp_bind. rewrite He. apply wp_lib, wp_ret.
  apply wp_bind, wp_gets. rewrite Hc. apply wp_return. reflexivity.
Qed.

(** On a miss the pipeline runs; whichever way it ends, it has stored
    a result and released what it acquired. *)
Lemma render_miss (mermaid_code : Str) (w : World) b data :
  browser w = Some b ->
  encode mermaid_code = inr data ->
  cache w !! MD5.hexdigest data = None ->
  exists r trace final,
    call (render_diagram driver mermaid_code) None w
    = (final, mkWorld (browser w) (playwright w)
                      (<[MD5.hexdigest data := r]> (cache w)) (log w ++ trace)) /\
    miss_run r trace final.
Proof.
  intros Hb He Hc.
  apply (wp_call _ (fun o => exists r trace final, o = (final, _) /\ _)).
  destruct w as [br pw ca lg]; cbn [browser playwright cache log] in *. subst br.
  unfold render_diagram, _get_cache_key.
  apply wp_bind, wp_gets. cbn [browser].
  do 2 apply wp_bind. rewrite He. apply wp_lib, wp_ret.
  apply wp_bind, wp_gets. cbn [cache]. rewrite Hc.
  repeat wp_step.
  all: repeat match goal with
         | Heq : truthy ?v = _ |- _ =>
             destruct v as [[|? ?]|]; cbn in Heq; try discriminate Heq; clear Heq
         end.
  all: eexists _, _, _; split; [rewrite <- ?app_assoc; reflexivity|].
  all: cbn [app].
  all: split;
    cbn [omap list_omap mbind option_bind fmap list_fmap last head format snd
         close_fault close_request acquired screenshot_clip bounding_box
         error_signal verdict exactly_one].
  all: try reflexivity.
  all: try (first [left; reflexivity | right; eexists; split; reflexivity]).
  all: try (intros Hno; first [reflexivity | discriminate Hno]).
  all: try (intros held; unfold open_surfaces;
            cbn [fold_left surface_step release];
            rewrite ?Nat.eqb_refl; reflexivity).
  all: try (intros p Hp;
            first [ by apply elem_of_nil in Hp
                  | apply list_elem_of_singleton in Hp; subst p;
                    eexists; reflexivity ]).
  all: try (intros m Hm Hne;
            first [ discriminate Hm | injection Hm as <-; first [reflexivity | done] ]).
Qed.

Lemma render_cases (mermaid_code : Str) (w : World) :
  render_case mermaid_code w (call (render_diagram driver mermaid_code) None w).
Proof.
  destruct (browser w) as [b|] eqn:Hb.
  - destruct (encode mermaid_code) as [e|data] eqn:He.
    + rewrite (render_unencodable _ _ b e Hb He). by eapply case_unencodable.
    + destruct (cache w !! MD5.hexdigest data) as [cached|] eqn:Hc.
      * rewrite (render_hit _ _ b data cached Hb He Hc). by eapply case_hit.
      * destruct (render_miss _ _ b data Hb He Hc) as (r & trace & final & -> & Hrun).
        by eapply case_miss.
  - rewrite (render_not_initialized _ _ Hb). by apply case_not_initialized.
Qed.

(** [start] either succeeds and sets [browser], or raises and leaves it. *)
Lemma start_cases (w : World) :
  match call (start driver) tt w with
  | (Next _, w') => is_Some (browser w') /\ cache w' = cache w
  | (Return _, _) => False
  | (Raise _, w') => browser w' = browser w /\ cache w' = cache w
  end.
Proof.
  apply (wp_call _ (fun o => match o with (Next _, w') => _ | (Return _, _) => _
                                     | (Raise _, w') => _ end)).
  unfold start. repeat wp_step; eauto.
Qed.

Lemma stop_frame (w : World) :
  browser (call (stop driver) tt w).2 = browser w /\
  cache (call (stop driver) tt w).2 = cache w.
Proof.
  apply (wp_call _ (fun o => browser o.2 = _ /\ cache o.2 = _)).
  unfold stop. repeat wp_step; eauto.
Qed.

End Pipeline.

(** ** Invariants of histories *)

Section Histories.
Context (driver : Driver) `{Pillow}.

Lemma render_frame (mermaid_code : Str) (w : World) :
  browser (call (render_diagram driver mermaid_code) None w).2 = browser w.
Proof.
  destruct (render_cases driver mermaid_code w); reflexivity.
Qed.

Lemma never_started_browser (w : World) :
  never_started driver w -> browser w = None.
Proof.
  induction 1 as [|w e _ IH Hraise|w _ IH|w mermaid_code _ IH].
  - reflexivity.
  - pose proof (start_cases driver w) as Hstart.
    destruct (call (start driver) tt w) as [[?|?|?] w']; cbn in *;
      try discriminate Hraise.
    destruct Hstart as [-> _]. exact IH.
  - destruct (stop_frame driver w) as [-> _]. exact IH.
  - rewrite render_frame. exact IH.
Qed.

Lemma render_keeps_cache_ok (mermaid_code : Str) (w : World) :
  cache_ok w -> cache_ok (call (render_diagram driver mermaid_code) None w).2.
Proof.
  intros Hok.
  destruct (render_cases driver mermaid_code w) as [| | |b data r trace final _ _ _ Hrun];
    try exact Hok.
  unfold cache_ok; cbn [cache snd]. apply map_Forall_insert_2; [|exact Hok].
  exact (run_exactly_one _ _ _ Hrun).
Qed.

Lemma follows_cache_ok (w w' : World) :
  follows driver w w' -> cache_ok w -> cache_ok w'.
Proof.
  intros Hfollows Hok.
  induction Hfollows as [|w' _ IH|w' _ IH|w' mermaid_code _ IH].
  - exact Hok.
  - pose proof (start_cases driver w') as Hstart. unfold cache_ok in *.
    destruct (call (start driver) tt w') as [[?|?|?] w'']; cbn in *;
      [destruct Hstart as [_ ->]|contradiction|destruct Hstart as [_ ->]]; exact IH.
  - unfold cache_ok in *. destruct (stop_frame driver w') as [_ ->]. exact IH.
  - by apply render_keeps_cache_ok.
Qed.

Lemma reachable_cache_ok (w : World) :
  reachable driver w -> cache_ok w.
Proof.
  intros Hreach. apply (follows_cache_ok _ _ Hreach). apply map_Forall_empty.
Qed.

(** Once started, the renderer stays started, and the cache keeps its
    entries. *)
Lemma follows_keeps (w w' : World) k r :
  follows driver w w' ->
  is_Some (browser w) -> cache w !! k = Some r ->
  is_Some (browser w') /\ cache w' !! k = Some r.
Proof.
  intros Hfollows Hb Hk.
  induction Hfollows as [|w' _ IH|w' _ IH|w' mermaid_code _ IH].
  - by split.
  - pose proof (start_cases driver w') as Hstart.
    destruct (call (start driver) tt w') as [[?|?|?] w'']; cbn in *.
    + destruct Hstart as [Hsome ->]. split; [exact Hsome|apply IH].
    + contradiction.
    + destruct Hstart as [-> ->]. exact IH.
  - destruct (stop_frame driver w') as [-> ->]. exact IH.
  - rewrite render_frame. split; [apply IH|].
    destruct IH as [_ IH].
    destruct (render_cases driver mermaid_code w')
      as [| | |b data r' trace final _ He Hc _]; cbn [snd cache]; try exact IH.
    rewrite lookup_insert_ne; [exact IH|]. intros <-. congruence.
Qed.

Lemma open_surfaces_app (held : list Page) (history trace : list Event) :
  open_surfaces held (history ++ trace)
  = open_surfaces (open_surfaces held history) trace.
Proof. apply fold_left_app. Qed.

(** Every call of [render_diagram] extends the log by a trace. *)
Lemma render_trace (mermaid_code : Str) (w : World) :
  exists trace,
    log (call (render_diagram driver mermaid_code) None w).2 = log w ++ trace /\
    (forall held, open_surfaces held trace = held) /\
    omap close_request trace = omap acquired trace /\
    (forall p, p ∈ omap acquired trace ->
               exists reply, last trace = Some (Ev (PageClose p) reply)) /\
    omap screenshot_clip trace = padded_clip <$> omap bounding_box trace.
Proof.
  destruct (render_cases driver mermaid_code w) as [| | |b data r trace final _ _ _ Hrun].
  1-3: exists []; rewrite app_nil_r; repeat split; try reflexivity;
       intros p Hp; by apply elem_of_nil in Hp.
  exists trace. destruct Hrun. by repeat split.
Qed.

End Histories.

(** The clamped origin is never negative. *)
Lemma py_max_0_nonneg (v : float) : (py_max 0 v <? 0)%float = false.
Proof.
  unfold py_max. destruct (0 <? v)%float eqn:E; [|reflexivity].
  rewrite ltb_spec in *. unfold SFltb in *.
  change (Prim2SF 0) with (S754_zero false) in *.
  destruct (Prim2SF v) as [[]|[]| |[] m e]; cbn in *; try discriminate; reflexivity.
Qed.

(** No double is below itself. *)
Lemma ltb_irrefl (v : float) : (v <? v)%float = false.
Proof.
  rewrite ltb_spec. unfold SFltb.
  destruct (Prim2SF v) as [[]|[]| |[] m e]; cbn;
    rewrite ?Z.compare_refl, ?Pos.compare_refl; reflexivity.
Qed.

(** Python's [max(0, v)] on doubles: the larger one, and [0] for a NaN
    and for [-0.0]. *)
Example py_max_values :
  py_max 0 5.5 = 5.5%float /\ py_max 0 (-3) = 0%float /\
  py_max 0 (-0) = 0%float /\ py_max 0 nan = 0%float /\
  py_max 0 infinity = infinity.
Proof. vm_compute. auto. Qed.

(** * The claims *)

Section Claims.
Context (driver : Driver) `{Pillow}.

(** C2.  Rendering the same text twice gives the same result both
    times: when a call of [render_diagram] returns [r], the next call
    with the same text returns [r] again and leaves the world,
    Playwright log included, exactly as it found it, so the browser is
    not invoked and no surface is opened. *)
Theorem render_twice_same_result (mermaid_code : Str) (w w1 : World) r :
  call (render_diagram driver mermaid_code) None w = (Return r, w1) ->
  call (render_diagram driver mermaid_code) None w1 = (Return r, w1).
Proof.
  destruct (render_cases driver mermaid_code w)
    as [Hb|b e Hb He|b data cached Hb He Hc|b data r' trace final Hb He Hc Hrun].
  - intros [= <- <-]. by apply render_not_initialized.
  - intros [=].
  - intros [= <- <-]. by eapply render_hit.
  - intros [= -> <-].
    destruct (run_final _ _ _ Hrun) as [[= ->]|(e & [=] & _)].
    eapply render_hit; [exact Hb|exact He|]. cbn [cache]. apply lookup_insert_eq.
Qed.

(** C3.  On a started renderer, for a text whose key is not in the
    cache, [render_diagram] stores a result [r] under that key on every
    path, whatever the variant; [r] is what the call returns (the call
    ends otherwise only by raising), and the identical next request
    replays [r] from the cache. *)
Theorem miss_result_is_cached (mermaid_code : Str) (w : World) b data :
  browser w = Some b ->
  encode mermaid_code = inr data ->
  cache w !! MD5.hexdigest data = None ->
  let first := call (render_diagram driver mermaid_code) None w in
  exists r,
    cache first.2 = <[MD5.hexdigest data := r]> (cache w) /\
    (first.1 = Return r \/ exists e, first.1 = Raise e) /\
    call (render_diagram driver mermaid_code) None first.2 = (Return r, first.2).
Proof.
  intros Hb He Hc first. subst first.
  destruct (render_miss driver mermaid_code w b data Hb He Hc)
    as (r & trace & final & -> & Hrun).
  exists r. cbn [fst snd cache]. split; [reflexivity|]. split.
  - destruct (run_final _ _ _ Hrun) as [->|(e & -> & _)]; eauto.
  - eapply render_hit; [exact Hb|exact He|]. cbn [cache]. apply lookup_insert_eq.
Qed.

(** C4.  Whatever the text, the world and the way the call ends
    (a returned success or failure, or an exception), every surface
    [render_diagram] acquired has had [close()] requested on it, as the
    last Playwright call of the render; the surfaces left open by the
    log are those that were open before. *)
Theorem surface_always_released (mermaid_code : Str) (w : World) :
  exists trace,
    log (call (render_diagram driver mermaid_code) None w).2 = log w ++ trace /\
    omap close_request trace = omap acquired trace /\
    (forall p, p ∈ omap acquired trace ->
               exists reply, last trace = Some (Ev (PageClose p) reply)) /\
    open_surfaces [] (log (call (render_diagram driver mermaid_code) None w).2)
    = open_surfaces [] (log w).
Proof.
  destruct (render_trace driver mermaid_code w)
    as (trace & Hlog & Hheld & Hscoped & Hlast & _).
  exists trace. repeat split; try done.
  rewrite Hlog, open_surfaces_app. apply Hheld.
Qed.

(** C5.  Before any [start()] has succeeded, [render_diagram] returns
    the failure "Renderer not initialized" for every text, and leaves
    the world untouched: nothing is asked of the browser. *)
Theorem render_before_start (mermaid_code : Str) (w : World) :
  never_started driver w ->
  call (render_diagram driver mermaid_code) None w
  = (Return (Failure (py "Renderer not initialized")), w).
Proof.
  intros Hns. apply render_not_initialized.
  exact (never_started_browser driver w Hns).
Qed.

(** C7.  Every clip [render_diagram] captures belongs to the bounding
    box it was given for the rendered element, in order: its left edge
    is [x - 20] when [0 < x - 20] and [0] otherwise, its top edge is
    [y - 20] when [0 < y - 20] and [0] otherwise, so each is the larger
    of the two (not below [0], not below the padded edge); its width is
    [w + 40] and its height [h + 40]. *)
Theorem screenshot_clip_is_padded_box (mermaid_code : Str) (w : World) :
  exists trace,
    log (call (render_diagram driver mermaid_code) None w).2 = log w ++ trace /\
    omap screenshot_clip trace = padded_clip <$> omap bounding_box trace /\
    Forall2 (fun clip bbox =>
               let x := (rect_x bbox - 20)%float in
               let y := (rect_y bbox - 20)%float in
               ((0 <? x)%float = true -> rect_x clip = x) /\
               ((0 <? x)%float = false -> rect_x clip = 0%float) /\
               ((0 <? y)%float = true -> rect_y clip = y) /\
               ((0 <? y)%float = false -> rect_y clip = 0%float) /\
               (rect_x clip <? x)%float = false /\
               (rect_y clip <? y)%float = false /\
               rect_width clip = (rect_width bbox + 40)%float /\
               rect_height clip = (rect_height bbox + 40)%float)
            (omap screenshot_clip trace) (omap bounding_box trace) /\
    (forall clip, clip ∈ omap screenshot_clip trace ->
                  (rect_x clip <? 0)%float = false /\ (rect_y clip <? 0)%float = false).
Proof.
  destruct (render_trace driver mermaid_code w)
    as (trace & Hlog & _ & _ & _ & Hclip).
  exists trace. split; [exact Hlog|]. split; [exact Hclip|]. split.
  - rewrite Hclip. apply Forall2_fmap_l, Forall_Forall2_diag, Forall_forall.
    intros bbox _. unfold padded_clip, py_max. cbv zeta. simpl.
    repeat match goal with
           | |- context [if ?c then _ else _] => destruct c eqn:?
           end.
    all: split_and!; try apply ltb_irrefl; done.
  - intros clip Hin. rewrite Hclip in Hin.
    apply list_elem_of_fmap in Hin as (bbox & -> & _).
    split; apply py_max_0_nonneg.
Qed.

(** C8.  [_optimize_image] returns for every input and never raises.
    What it returns is the input itself unless a re-encoding succeeded
    and produced it; in particular it is the input when decoding
    faults, and when the decoded image has no alpha channel and
    re-encoding it faults. *)
Theorem optimize_image_never_raises (image_bytes : Bytes) (w : World) :
  exists out,
    call (_optimize_image image_bytes) tt w = (Return out, w) /\
    (out = image_bytes \/ exists im, Image_save im "PNG" true 85 = inr out) /\
    ((exists e, Image_open image_bytes = inl e) -> out = image_bytes) /\
    (forall im e,
        Image_open image_bytes = inr im ->
        (String.eqb (Image_mode im) "RGBA" || String.eqb (Image_mode im) "LA")%string = false ->
        Image_save im "PNG" true 85 = inl e ->
        out = image_bytes).
Proof.
  destruct (optimize_returns image_bytes w) as (out & Hout & Hwhich).
  exists out. unfold call. rewrite Hout. repeat split; [exact Hwhich| |].
  - intros [e He]. revert Hout.
    unfold _optimize_image, try_except, lib, raise, py_return, mbind, M_bind.
    rewrite He. by intros [= ->].
  - intros im e Hopen Hmode Hsave. revert Hout.
    unfold _optimize_image, try_except, lib, raise, py_return, mbind, mret, M_bind, M_ret.
    rewrite Hopen, Hmode, Hsave. by intros [= ->].
Qed.

(** C9.  In every world the renderer can reach, a call of
    [render_diagram] that returns gives a pair with exactly one
    component populated; the call never ends without a result. *)
Theorem render_result_exactly_one (mermaid_code : Str) (w : World) :
  reachable driver w ->
  match (call (render_diagram driver mermaid_code) None w).1 with
  | Return r => exactly_one r = true
  | Next _ => False
  | Raise _ => True
  end.
Proof.
  intros Hreach. apply reachable_cache_ok in Hreach.
  destruct (render_cases driver mermaid_code w)
    as [Hb|b e Hb He|b data cached Hb He Hc|b data r trace final Hb He Hc Hrun];
    cbn [fst]; try done.
  - exact (Hreach _ _ Hc).
  - destruct (run_final _ _ _ Hrun) as [->|(e & -> & _)]; [|done].
    exact (run_exactly_one _ _ _ Hrun).
Qed.

(** C10.  On its two early returns, the renderer not being initialized
    and the key being in the cache, [render_diagram] leaves the cache
    as it was. *)
Theorem early_returns_leave_cache (mermaid_code : Str) (w : World) :
  browser w = None \/
  (exists data, encode mermaid_code = inr data /\
                is_Some (cache w !! MD5.hexdigest data)) ->
  cache (call (render_diagram driver mermaid_code) None w).2 = cache w.
Proof.
  intros Hearly.
  destruct (render_cases driver mermaid_code w)
    as [Hb|b e Hb He|b data cached Hb He Hc|b data r trace final Hb He Hc Hrun];
    try reflexivity.
  destruct Hearly as [Hnone|(data' & He' & [cached Hc'])]; [congruence|].
  rewrite He in He'. injection He' as <-. congruence.
Qed.

End Claims.

(** * Further properties of the pipeline *)

Section Further.
Context (driver : Driver) `{Pillow}.

(** X1.  [render_diagram] returns, and does not raise, whenever the text
    can be encoded (or the renderer is not initialized) and no
    [close()] of the call faulted. *)
Theorem never_raises_when_close_succeeds (mermaid_code : Str) (w : World) :
  browser w = None \/ (exists data, encode mermaid_code = inr data) ->
  omap close_fault
       (drop (length (log w)) (log (call (render_diagram driver mermaid_code) None w).2)) = [] ->
  exists r, (call (render_diagram driver mermaid_code) None w).1 = Return r.
Proof.
  destruct (render_cases driver mermaid_code w)
    as [Hb|b e Hb He|b data cached Hb He Hc|b data r trace final Hb He Hc Hrun];
    cbn [fst snd log]; intros Hok Hclose; eauto.
  - destruct Hok as [Hnone|[data Hdata]]; congruence.
  - rewrite drop_app_length in Hclose. exists r. exact (run_returns _ _ _ Hrun Hclose).
Qed.

(** X2.  When [page.evaluate] read a non-empty error message [m] and the
    call returns, what it returns is the failure "Mermaid error: "
    followed by [m]. *)
Theorem error_signal_reported (mermaid_code : Str) (w w' : World) r m :
  call (render_diagram driver mermaid_code) None w = (Return r, w') ->
  omap error_signal (drop (length (log w)) (log w')) = [m] ->
  m <> [] ->
  r = Failure (py "Mermaid error: " ++ m).
Proof.
  destruct (render_cases driver mermaid_code w)
    as [Hb|b e Hb He|b data cached Hb He Hc|b data r' trace final Hb He Hc Hrun].
  1,3: intros [= <- <-]; rewrite drop_all; discriminate.
  - intros [=].
  - intros [= -> <-]. cbn [log]. rewrite drop_app_length. intros Hm Hne.
    destruct (run_final _ _ _ Hrun) as [[= ->]|(e & [=] & _)].
    exact (run_error_signal _ _ _ Hrun m Hm Hne).
Qed.

(** X3.  Once a key maps to a result, no call of [render_diagram]
    changes the mapping. *)
Theorem cached_results_never_change (mermaid_code : Str) (w : World) k r :
  cache w !! k = Some r ->
  cache (call (render_diagram driver mermaid_code) None w).2 !! k = Some r.
Proof.
  intros Hk.
  destruct (render_cases driver mermaid_code w)
    as [Hb|b e Hb He|b data cached Hb He Hc|b data r' trace final Hb He Hc Hrun];
    cbn [snd cache]; try exact Hk.
  rewrite lookup_insert_ne; [exact Hk|]. intros <-. congruence.
Qed.

(** X4.  A result returned by a started renderer is replayed for the
    same text after any further calls of [start], [stop] and
    [render_diagram], without a call to the browser. *)
Theorem result_replayed_ever_after (mermaid_code : Str) (w w1 w2 : World) r :
  is_Some (browser w) ->
  call (render_diagram driver mermaid_code) None w = (Return r, w1) ->
  follows driver w1 w2 ->
  call (render_diagram driver mermaid_code) None w2 = (Return r, w2).
Proof.
  intros [b Hb].
  destruct (render_cases driver mermaid_code w)
    as [Hnone|b' e _ He|b' data cached _ He Hc|b' data r' trace final _ He Hc Hrun].
  - congruence.
  - intros [=].
  - intros [= <- <-] Hfollows.
    destruct (follows_keeps driver w w2 _ _ Hfollows (ex_intro _ b Hb) Hc) as [[b2 Hb2] Hc2].
    by eapply render_hit.
  - intros [= -> <-] Hfollows.
    destruct (run_final _ _ _ Hrun) as [[= ->]|(e & [=] & _)].
    eapply follows_keeps in Hfollows as [[b2 Hb2] Hc2];
      [|cbn [browser]; eauto|cbn [cache]; apply lookup_insert_eq].
    by eapply render_hit.
Qed.

(** X5.  On a miss, the error message of the stored result is the one
    the browser's replies decide, in the order of the pipeline: a fault
    of the wait or of reading the signal is a timeout, a non-empty
    signal a layout error, a missing element or bounding box its own
    failure, any other fault a rendering error; with none of these the
    result is an image. *)
Theorem stored_message_follows_replies (mermaid_code : Str) (w : World) b data :
  browser w = Some b ->
  encode mermaid_code = inr data ->
  cache w !! MD5.hexdigest data = None ->
  let w' := (call (render_diagram driver mermaid_code) None w).2 in
  exists r,
    cache w' !! MD5.hexdigest data = Some r /\
    r.2 = head (omap verdict (drop (length (log w)) (log w'))) /\
    (is_Some r.1 <-> r.2 = None).
Proof.
  intros Hb He Hc w'. subst w'.
  destruct (render_miss driver mermaid_code w b data Hb He Hc)
    as (r & trace & final & -> & Hrun).
  exists r. cbn [snd cache log]. rewrite drop_app_length, lookup_insert_eq.
  repeat split; try exact (run_verdict _ _ _ Hrun).
  all: pose proof (run_exactly_one _ _ _ Hrun) as Hone.
  all: destruct r as [[image|] [message|]]; cbn in *; try discriminate; eauto.
  all: by intros [? ?].
Qed.

End Further.

(** ** The pipeline on concrete browsers *)

Example encode_graph_td : encode graph_td = inr graph_td_utf8.
Proof. reflexivity. Qed.

Example cache_key_graph_td :
  MD5.hexdigest graph_td_utf8 = "7e32e2e8603017a8cf449c4884d320b4"%string.
Proof. vm_compute. reflexivity. Qed.

(** The document loaded for [graph_td], by its digest. *)
Example html_content_graph_td :
  match encode (_create_html_content graph_td) with
  | inr data => MD5.hexdigest data = "1b046bd706fcfd6d69b38dba181bfa72"%string
  | inl _ => False
  end.
Proof. vm_compute. reflexivity. Qed.

Example start_against_healthy_browser :
  browser started = Some 1%nat /\ playwright started = Some 1%nat /\
  length (log started) = 2%nat.
Proof. vm_compute. auto. Qed.

Example start_without_browser :
  (call (start (scripted no_browser)) tt new_renderer).1
  = Raise (Exception (py "Executable doesn't exist")) /\
  browser start_failed = None /\ playwright start_failed = Some 1%nat.
Proof. vm_compute. auto. Qed.

Example healthy_render :
  (call (render_diagram (scripted healthy) (H := signature_only) graph_td) None started).1
  = Return (Success [x89; x50; x4e; x47; x0a]).
Proof. vm_compute. reflexivity. Qed.

Example healthy_render_clip :
  omap screenshot_clip (log rendered) = [mkRect 0 100 340 240.25].
Proof. vm_compute. reflexivity. Qed.

(** A box away from the edges: both coordinates of the origin move by
    the padding. *)
Example clip_of_inner_box :
  padded_clip (mkRect 100.5 64 300 200) = mkRect 80.5 44 340 240.
Proof. vm_compute. reflexivity. Qed.

Example healthy_render_surfaces :
  omap acquired (log rendered) = [5%nat] /\
  omap close_request (log rendered) = [5%nat] /\
  open_surfaces [] (log rendered) = [].
Proof. vm_compute. auto. Qed.

(** C1.  [render_diagram] raises to its caller in two situations: when
    [page.close()] faults in the [finally] block, its exception replaces
    the result the call was about to return; and when the text holds a
    lone surrogate, [encode()] raises before the [try] is entered. *)
Theorem render_raises_to_caller :
  (call (render_diagram (scripted close_fails) (H := signature_only) graph_td) None started).1
  = Raise (Exception (py "Connection closed")) /\
  (call (render_diagram (scripted healthy) (H := signature_only) [0xD800%N]) None started).1
  = Raise UnicodeEncodeError.
Proof. split; vm_compute; reflexivity. Qed.

(** C6.  When the error signal is set with the empty message, the
    [if error_message:] test fails and [render_diagram] goes on to look
    for the diagram; what it returns is the failure "Failed to find
    rendered diagram", not "Mermaid error: " followed by the message. *)
Theorem empty_error_message_misreported :
  (call (render_diagram (scripted (layout_error [])) (H := signature_only) graph_td) None started).1
  = Return (Failure (py "Failed to find rendered diagram")) /\
  Failure (py "Failed to find rendered diagram") <> Failure (py "Mermaid error: " ++ []).
Proof. split; [vm_compute; reflexivity|discriminate]. Qed.

(** ** Witnesses *)

Lemma render_twice_same_result_witness :
  call (render_diagram (scripted healthy) (H := signature_only) graph_td) None rendered
  = (Return (Success [x89; x50; x4e; x47; x0a]), rendered).
Proof.
  apply (render_twice_same_result (scripted healthy) (H := signature_only) graph_td started).
  vm_compute. reflexivity.
Defined.

Lemma miss_result_is_cached_witness :
  exists r,
    cache rendered = <[MD5.hexdigest graph_td_utf8 := r]> (cache started) /\
    call (render_diagram (scripted healthy) (H := signature_only) graph_td) None rendered
    = (Return r, rendered).
Proof.
  destruct (miss_result_is_cached (scripted healthy) (H := signature_only)
              graph_td started 1%nat graph_td_utf8)
    as (r & Hstored & _ & Hreplay).
  - reflexivity.
  - reflexivity.
  - vm_compute. reflexivity.
  - exists r. split; [exact Hstored|exact Hreplay].
Defined.

Lemma render_before_start_witness :
  call (render_diagram (scripted no_browser) (H := signature_only) graph_td) None start_failed
  = (Return (Failure (py "Renderer not initialized")), start_failed).
Proof.
  apply (render_before_start (scripted no_browser) (H := signature_only)).
  apply (ns_start_failed (scripted no_browser) new_renderer
           (Exception (py "Executable doesn't exist"))).
  - apply ns_new.
  - vm_compute. reflexivity.
Defined.

Lemma optimize_image_never_raises_witness :
  exists out,
    call (_optimize_image (H := signature_only) [x00; x01]) tt new_renderer
    = (Return out, new_renderer) /\
    out = [x00; x01].
Proof.
  destruct (optimize_image_never_raises (H := signature_only) [x00; x01] new_renderer)
    as (out & Hcall & _ & Hdecode & _).
  exists out. split; [exact Hcall|].
  apply Hdecode. eexists. reflexivity.
Defined.

Lemma render_result_exactly_one_witness :
  match (call (render_diagram (scripted healthy) (H := signature_only) graph_td) None started).1 with
  | Return r => exactly_one r = true
  | Next _ => False
  | Raise _ => True
  end.
Proof.
  apply (render_result_exactly_one (scripted healthy) (H := signature_only) graph_td started).
  apply (follows_start (scripted healthy) new_renderer), follows_refl.
Defined.

Lemma early_returns_leave_cache_witness :
  cache (call (render_diagram (scripted healthy) (H := signature_only) graph_td) None new_renderer).2
  = cache new_renderer /\
  cache (call (render_diagram (scripted healthy) (H := signature_only) graph_td) None rendered).2
  = cache rendered.
Proof.
  split.
  - apply (early_returns_leave_cache (scripted healthy) (H := signature_only)).
    left. reflexivity.
  - apply (early_returns_leave_cache (scripted healthy) (H := signature_only)).
    right. exists graph_td_utf8. split; [reflexivity|].
    vm_compute. eexists. reflexivity.
Defined.

Lemma never_raises_when_close_succeeds_witness :
  exists r,
    (call (render_diagram (scripted healthy) (H := signature_only) graph_td) None started).1
    = Return r.
Proof.
  apply (never_raises_when_close_succeeds (scripted healthy) (H := signature_only)).
  - right. exists graph_td_utf8. reflexivity.
  - vm_compute. reflexivity.
Defined.

Lemma error_signal_reported_witness :
  Failure (py "Mermaid error: Parse error on line 1")
  = Failure (py "Mermaid error: " ++ parse_error).
Proof.
  apply (error_signal_reported (scripted (layout_error parse_error)) (H := signature_only)
           graph_td started rejected).
  - vm_compute. reflexivity.
  - vm_compute. reflexivity.
  - discriminate.
Defined.

Lemma cached_results_never_change_witness :
  cache (call (render_diagram (scripted (layout_error parse_error)) (H := signature_only)
                 (py "graph LR")) None rendered).2
    !! MD5.hexdigest graph_td_utf8
  = Some (Success [x89; x50; x4e; x47; x0a]).
Proof.
  apply (cached_results_never_change (scripted (layout_error parse_error))
           (H := signature_only)).
  vm_compute. reflexivity.
Defined.

Lemma stored_message_follows_replies_witness :
  exists r,
    cache rejected !! MD5.hexdigest graph_td_utf8 = Some r /\
    r.2 = head (omap verdict (drop (length (log started)) (log rejected))).
Proof.
  destruct (stored_message_follows_replies (scripted (layout_error parse_error))
              (H := signature_only) graph_td started 1%nat graph_td_utf8)
    as (r & Hstored & Hmessage & _).
  - reflexivity.
  - reflexivity.
  - vm_compute. reflexivity.
  - exists r. split; [exact Hstored|exact Hmessage].
Defined.

Lemma result_replayed_ever_after_witness :
  call (render_diagram (scripted healthy) (H := signature_only) graph_td) None later_on
  = (Return (Success [x89; x50; x4e; x47; x0a]), later_on).
Proof.
  apply (result_replayed_ever_after (scripted healthy) (H := signature_only)
           graph_td started rendered later_on).
  - eexists. reflexivity.
  - vm_compute. reflexivity.
  - apply (follows_stop (scripted healthy) (H := signature_only)),
          (follows_render (scripted healthy) (H := signature_only)), follows_refl.
Defined.

(** * The requests of the renderer *)

Section Shape.
Context (driver : Driver) `{Pillow}.

Lemma wp_invoke_optimize_spec {L R} (image_bytes : Bytes)
    (Q : Ctl R (option Bytes) -> L -> World -> Prop) l w :
  (forall out,
      out = image_bytes \/ (exists im, Image_save im "PNG" true 85 = inr out) ->
      Q (Next (Some out)) l w) ->
  wp (invoke (_optimize_image image_bytes) tt) Q l w.
Proof.
  intros HQ. unfold wp, invoke.
  destruct (optimize_returns image_bytes w) as [out [-> Hout]]. by apply HQ.
Qed.

Ltac shape_step :=
  lazymatch goal with
  | |- wp (invoke (_optimize_image _) _) _ _ _ =>
      apply wp_invoke_optimize_spec; intros ?out ?Hout
  | _ => wp_step
  end.

Lemma render_miss_shape (mermaid_code : Str) (w : World) b data :
  browser w = Some b ->
  encode mermaid_code = inr data ->
  cache w !! MD5.hexdigest data = None ->
  exists r trace final,
    call (render_diagram driver mermaid_code) None w
    = (final, mkWorld (browser w) (playwright w)
                      (<[MD5.hexdigest data := r]> (cache w)) (log w ++ trace)) /\
    miss_shape mermaid_code b r trace.
Proof.
  intros Hb He Hc.
  apply (wp_call _ (fun o => exists r trace final, o = (final, _) /\ _)).
  destruct w as [br pw ca lg]; cbn [browser playwright cache log] in *. subst br.
  unfold render_diagram, _get_cache_key.
  apply wp_bind, wp_gets. cbn [browser].
  do 2 apply wp_bind. rewrite He. apply wp_lib, wp_ret.
  apply wp_bind, wp_gets. cbn [cache]. rewrite Hc.
  repeat shape_step.
  all: eexists _, _, _; split; [rewrite <- ?app_assoc; reflexivity|].
  all: cbn [app].
  all: split;
    cbn [omap list_omap mbind option_bind fmap list_fmap head length fst
         acquired screenshot_clip viewport_set content_set screenshot_reply].
  all: try (eexists _, _; reflexivity).
  all: try lia.
  all: try reflexivity.
  all: try (intros p html Hin;
            first [ by apply elem_of_nil in Hin
                  | apply list_elem_of_singleton in Hin; injection Hin as -> ->;
                    split; [apply list_elem_of_singleton|]; reflexivity ]).
  all: try by intros image [=].
  all: intros image [= <-]; eexists; split; [reflexivity|exact Hout].
Qed.

End Shape.

Lemma encode_surrogate (s : Str) :
  Exists (fun c => is_surrogate c = true) s -> encode s = inl UnicodeEncodeError.
Proof.
  induction s as [|c s IH]; intros Hex; [by apply Exists_nil in Hex|].
  cbn. destruct (is_surrogate c) eqn:Hc; [reflexivity|].
  apply Exists_cons in Hex as [Hhere|Hlater]; [congruence|].
  by rewrite (IH Hlater).
Qed.

Section Requests.
Context (driver : Driver) `{Pillow}.

(** Either the call left the log alone, or it ran the pipeline. *)
Lemma render_shape_cases (mermaid_code : Str) (w : World) :
  log (call (render_diagram driver mermaid_code) None w).2 = log w \/
  exists b data r trace,
    browser w = Some b /\ encode mermaid_code = inr data /\
    cache w !! MD5.hexdigest data = None /\
    (call (render_diagram driver mermaid_code) None w).2
    = mkWorld (browser w) (playwright w)
              (<[MD5.hexdigest data := r]> (cache w)) (log w ++ trace) /\
    miss_shape mermaid_code b r trace.
Proof.
  destruct (browser w) as [b|] eqn:Hb.
  - destruct (encode mermaid_code) as [e|data] eqn:He.
    + left. by rewrite (render_unencodable _ _ _ b e Hb He).
    + destruct (cache w !! MD5.hexdigest data) as [cached|] eqn:Hc.
      * left. by rewrite (render_hit _ _ _ b data cached Hb He Hc).
      * right. destruct (render_miss_shape driver _ _ b data Hb He Hc)
          as (r & trace & final & Hcall & Hshape).
        exists b, data, r, trace. rewrite Hcall. cbn [snd]. rewrite Hb. by split_and!.
  - left. by rewrite (render_not_initialized _ _ _ Hb).
Qed.

(** X6.  One call of [render_diagram] makes at most nine requests to
    the browser, opens at most one page and takes at most one
    screenshot. *)
Theorem render_call_budget (mermaid_code : Str) (w : World) :
  exists trace,
    log (call (render_diagram driver mermaid_code) None w).2 = log w ++ trace /\
    (length trace <= 9)%nat /\
    (length (omap acquired trace) <= 1)%nat /\
    (length (omap screenshot_clip trace) <= 1)%nat.
Proof.
  destruct (render_shape_cases mermaid_code w)
    as [->|(b & data & r & trace & _ & _ & _ & -> & Hshape)].
  - exists []. rewrite app_nil_r. cbn. repeat split; lia.
  - exists trace. destruct Hshape. by split_and!.
Qed.

(** X7.  The only document a call loads is the one built from its own
    text, into the page it opened itself, whose viewport it sets to
    1200 by 800. *)
Theorem render_loads_only_its_document (mermaid_code : Str) (w : World) :
  exists trace,
    log (call (render_diagram driver mermaid_code) None w).2 = log w ++ trace /\
    omap viewport_set trace = (fun p => (p, 1200, 800)) <$> omap acquired trace /\
    (forall p html, (p, html) ∈ omap content_set trace ->
                    p ∈ omap acquired trace /\ html = _create_html_content mermaid_code).
Proof.
  destruct (render_shape_cases mermaid_code w)
    as [->|(b & data & r & trace & _ & _ & _ & -> & Hshape)].
  - exists []. rewrite app_nil_r. split; [done|]. split; [done|].
    intros p html Hin. by apply elem_of_nil in Hin.
  - exists trace. destruct Hshape. by split_and!.
Qed.

(** X8.  On a started renderer, a text that holds a surrogate code point
    anywhere makes [render_diagram] raise [UnicodeEncodeError]; the
    cache and the browser are left alone. *)
Theorem surrogate_text_raises (mermaid_code : Str) (w : World) :
  is_Some (browser w) ->
  Exists (fun c => is_surrogate c = true) mermaid_code ->
  call (render_diagram driver mermaid_code) None w = (Raise UnicodeEncodeError, w).
Proof.
  intros [b Hb] Hex. eapply render_unencodable; [exact Hb|]. by apply encode_surrogate.
Qed.

(** X9.  The image stored on a miss is made of the one screenshot the
    call took: it is that screenshot, or what Pillow's [save] wrote. *)
Theorem success_image_from_screenshot (mermaid_code : Str) (w : World) b data :
  browser w = Some b ->
  encode mermaid_code = inr data ->
  cache w !! MD5.hexdigest data = None ->
  let w' := (call (render_diagram driver mermaid_code) None w).2 in
  forall image message,
    cache w' !! MD5.hexdigest data = Some (Some image, message) ->
    exists shot,
      omap screenshot_reply (drop (length (log w)) (log w')) = [shot] /\
      (image = shot \/ exists im, Image_save im "PNG" true 85 = inr image).
Proof.
  intros Hb He Hc w' image message. subst w'.
  destruct (render_miss_shape driver _ _ b data Hb He Hc)
    as (r & trace & final & -> & Hshape).
  cbn [snd cache log]. rewrite lookup_insert_eq, drop_app_length. intros [= ->].
  by apply (shape_image _ _ _ _ Hshape).
Qed.

(** What [start()] asks, and what it leaves. *)
Lemma start_run (w : World) :
  let '(final, w') := call (start driver) tt w in
  cache w' = cache w /\
  exists trace,
    log w' = log w ++ trace /\
    (length trace <= 2)%nat /\
    omap browser_closed trace = [] /\
    omap playwright_stopped trace = [] /\
    (playwright w' = playwright w /\ omap playwright_started trace = [] \/
     exists pw, playwright w' = Some pw /\ omap playwright_started trace = [pw]) /\
    match final with
    | Next _ => omap fault_of trace = [] /\ is_Some (playwright w') /\
                exists b, browser w' = Some b /\ omap launched trace = [b]
    | Return _ => False
    | Raise e => omap fault_of trace = [e] /\ browser w' = browser w /\
                 omap launched trace = []
    end.
Proof.
  apply (wp_call _ (fun o => let '(final, w') := o in _)).
  destruct w as [br pw ca lg]. unfold start.
  repeat wp_step.
  all: split; [reflexivity|].
  all: eexists; split; [rewrite <- ?app_assoc; reflexivity|].
  all: cbn [app length omap list_omap mbind option_bind
            browser_closed playwright_stopped playwright_started launched fault_of].
  all: repeat match goal with v : unit |- _ => destruct v end.
  all: split_and!; try reflexivity; try lia; eauto.
Qed.

(** What [stop()] asks, and what it leaves. *)
Lemma stop_run (w : World) :
  let '(final, w') := call (stop driver) tt w in
  browser w' = browser w /\ playwright w' = playwright w /\ cache w' = cache w /\
  exists trace,
    log w' = log w ++ trace /\
    omap browser_closed trace = option_list (browser w) /\
    omap launched trace = [] /\
    omap playwright_started trace = [] /\
    match omap browser_close_fault trace with
    | [] => omap playwright_stopped trace = option_list (playwright w) /\
            (omap fault_of trace = [] -> final = Next tt)
    | e :: _ => omap playwright_stopped trace = [] /\ final = Raise e
    end.
Proof.
  apply (wp_call _ (fun o => let '(final, w') := o in _)).
  destruct w as [br pw ca lg]. unfold stop.
  repeat wp_step.
  all: split_and!; try reflexivity.
  all: eexists; split; [rewrite <- ?app_assoc; try reflexivity; by rewrite app_nil_r|].
  all: cbn [app omap list_omap mbind option_bind option_list
            browser_closed browser_close_fault playwright_stopped playwright_started
            launched fault_of].
  all: repeat match goal with v : unit |- _ => destruct v end.
  all: split_and!; try reflexivity; try by intros [=].
Qed.

(** X10.  [start()] makes at most two requests and closes nothing.  It
    raises exactly the fault of the request that failed, and then
    [self.browser] is what it was; when it returns, [self.browser] is
    the browser that was launched.  The cache is kept either way. *)
Theorem start_requests (w : World) :
  let '(final, w') := call (start driver) tt w in
  cache w' = cache w /\
  exists trace,
    log w' = log w ++ trace /\
    (length trace <= 2)%nat /\
    omap browser_closed trace = [] /\
    match final with
    | Next _ => omap fault_of trace = [] /\ is_Some (playwright w') /\
                exists b, browser w' = Some b /\ omap launched trace = [b]
    | Return _ => False
    | Raise e => omap fault_of trace = [e] /\ browser w' = browser w /\
                 omap launched trace = []
    end.
Proof.
  pose proof (start_run w) as Hrun.
  destruct (call (start driver) tt w) as [final w'].
  destruct Hrun as (Hcache & trace & Hlog & Hlen & Hclosed & _ & _ & Hfinal).
  split; [exact Hcache|]. exists trace. by split_and!.
Qed.

(** X11.  [stop()] asks the browser to close when there is one, then
    Playwright to stop when it was started, and keeps [self.browser],
    [self.playwright] and the cache as they are.  When [close()] faults,
    [stop()] raises that fault and Playwright is not asked to stop. *)
Theorem stop_requests (w : World) :
  let '(final, w') := call (stop driver) tt w in
  browser w' = browser w /\ playwright w' = playwright w /\ cache w' = cache w /\
  exists trace,
    log w' = log w ++ trace /\
    omap browser_closed trace = option_list (browser w) /\
    match omap browser_close_fault trace with
    | [] => omap playwright_stopped trace = option_list (playwright w) /\
            (omap fault_of trace = [] -> final = Next tt)
    | e :: _ => omap playwright_stopped trace = [] /\ final = Raise e
    end.
Proof.
  pose proof (stop_run w) as Hrun.
  destruct (call (stop driver) tt w) as [final w'].
  destruct Hrun as (Hb & Hpw & Hcache & trace & Hlog & Hclosed & _ & _ & Hfinal).
  split_and!; try done. exists trace. by split_and!.
Qed.

(** X12.  [stop()] does not reset the renderer: a later call of
    [render_diagram] with a text that is not cached still asks the
    closed browser for a page. *)
Theorem render_after_stop_asks_browser (mermaid_code : Str) (w : World) b data :
  browser w = Some b ->
  encode mermaid_code = inr data ->
  cache w !! MD5.hexdigest data = None ->
  let stopped := (call (stop driver) tt w).2 in
  exists reply rest,
    log (call (render_diagram driver mermaid_code) None stopped).2
    = log stopped ++ Ev (NewPage b) reply :: rest.
Proof.
  intros Hb He Hc stopped.
  destruct (stop_frame driver w) as [Hbrowser Hcache]. fold stopped in Hbrowser, Hcache.
  destruct (render_miss_shape driver mermaid_code stopped b data)
    as (r & trace & final & -> & Hshape); [congruence|done|congruence|].
  destruct (shape_first _ _ _ _ Hshape) as (reply & rest & ->). by exists reply, rest.
Qed.

End Requests.

(** ** The look of the cache keys *)

Lemma le_bytes_length n z : length (MD5.le_bytes n z) = n.
Proof. unfold MD5.le_bytes. by rewrite length_map, length_seq. Qed.

Lemma le_bytes_range n z : Forall (fun b => 0 <= b < 256) (MD5.le_bytes n z).
Proof.
  unfold MD5.le_bytes. apply Forall_map, Forall_forall. intros i _. cbn beta.
  change 255 with (Z.ones 8). rewrite Z.land_ones by lia.
  apply Z.mod_pos_bound. lia.
Qed.

Lemma hex_digit_is_hex z : 0 <= z < 16 -> is_hex_digit (MD5.hex_digit z) = true.
Proof.
  intros Hz.
  assert (z = 0 \/ z = 1 \/ z = 2 \/ z = 3 \/ z = 4 \/ z = 5 \/ z = 6 \/ z = 7 \/
          z = 8 \/ z = 9 \/ z = 10 \/ z = 11 \/ z = 12 \/ z = 13 \/ z = 14 \/ z = 15)
    as Hcases by lia.
  repeat destruct Hcases as [->|Hcases]; try subst z; reflexivity.
Qed.

Lemma length_string_of_list_ascii (l : list ascii) :
  String.length (string_of_list_ascii l) = length l.
Proof. induction l as [|a l IH]; cbn; [reflexivity|by rewrite IH]. Qed.

Lemma hexdigest_is_cache_key (msg : Bytes) : is_cache_key (MD5.hexdigest msg).
Proof.
  unfold MD5.hexdigest, MD5.digest.
  set (st := MD5.chunks _ _ _).
  set (bytes := _ ++ _ ++ _ ++ _).
  assert (length bytes = 16%nat) as Hlen.
  { unfold bytes. by rewrite !length_app, !le_bytes_length. }
  assert (Forall (fun b => 0 <= b < 256) bytes) as Hrange.
  { unfold bytes. rewrite !Forall_app. by split_and!; apply le_bytes_range. }
  clearbody bytes. clear st. split.
  - rewrite length_string_of_list_ascii.
    rewrite (flat_map_constant_length (c := 2%nat)); [lia|]. by intros.
  - rewrite list_ascii_of_string_of_list_ascii. apply forallb_forall.
    intros a Hin. apply in_flat_map in Hin as (b & Hb & Ha).
    rewrite Forall_forall in Hrange. apply list_elem_of_In in Hb. specialize (Hrange b Hb).
    destruct Ha as [<-|[<-|[]]]; apply hex_digit_is_hex.
    + split; [apply Z.div_pos; lia|apply Z.div_lt_upper_bound; lia].
    + apply Z.mod_pos_bound. lia.
Qed.

Section Keys.
Context (driver : Driver) `{Pillow}.

(** X13.  In every state the renderer can reach, each key of the cache
    is 32 lower-case hexadecimal digits: the MD5 digest of the UTF-8
    bytes of a text. *)
Theorem cache_keys_are_digests (w : World) k r :
  reachable driver w ->
  cache w !! k = Some r ->
  is_cache_key k /\
  exists mermaid_code data, encode mermaid_code = inr data /\ k = MD5.hexdigest data.
Proof.
  intros Hreach. revert k r. unfold reachable in Hreach.
  induction Hreach as [|w' _ IH|w' _ IH|w' mermaid_code _ IH]; intros k r.
  - unfold new_renderer. cbn [cache]. by rewrite lookup_empty.
  - pose proof (start_cases driver w') as Hstart.
    destruct (call (start driver) tt w') as [[?|?|?] w'']; cbn in *;
      [destruct Hstart as [_ ->]|contradiction|destruct Hstart as [_ ->]]; apply IH.
  - destruct (stop_frame driver w') as [_ ->]. apply IH.
  - destruct (render_cases driver mermaid_code w')
      as [| | |b data r' trace final _ He Hc _]; cbn [snd cache]; try apply IH.
    destruct (decide (k = MD5.hexdigest data)) as [->|Hne].
    + intros _. split; [apply hexdigest_is_cache_key|eauto].
    + rewrite lookup_insert_ne by done. apply IH.
Qed.

End Keys.

(** * The request adapter *)

(** ** Rules for its blocks *)

Lemma wp_run {L R A} (m : M L R A) (P : Ctl R A * L * World -> Prop) l w :
  wp m (fun done l' w' => P (done, l', w')) l w -> P (m l w).
Proof. unfold wp. by destruct (m l w) as [[done l'] w']. Qed.

Lemma wp_any {L R A} (m : M L R A) (Q : Ctl R A -> L -> World -> Prop) l w :
  (forall done l' w', m l w = (done, l', w') -> Q done l' w') -> wp m Q l w.
Proof. intros HQ. unfold wp. destruct (m l w) as [[done l'] w'] eqn:E. by apply HQ. Qed.

Lemma wp_tg {R T} (telegram : Telegram) (c : TgCall T)
    (Q : Ctl R T -> Bot -> World -> Prop) g w :
  (forall e, telegram (sent g) T c = inl e ->
             Q (Raise e) (sent_event (TgEv c (inl e)) g) w) ->
  (forall v, telegram (sent g) T c = inr v ->
             Q (Next v) (sent_event (TgEv c (inr v)) g) w) ->
  wp (tg telegram c) Q g w.
Proof.
  intros He Hv. unfold wp, tg.
  destruct (telegram (sent g) T c) as [e|v] eqn:E; auto.
Qed.

Lemma wp_invoke {L L' R R'} (callee : M L' R' unit) (locals : L')
    (Q : Ctl R (option R') -> L -> World -> Prop) l w :
  (forall done w', call callee locals w = (done, w') ->
                   match done with
                   | Next _ => Q (Next None) l w'
                   | Return r => Q (Next (Some r)) l w'
                   | Raise e => Q (Raise e) l w'
                   end) ->
  wp (invoke callee locals) Q l w.
Proof.
  intros HQ. specialize (HQ (call callee locals w).1 (call callee locals w).2).
  unfold wp, invoke, call in *.
  destruct (callee locals w) as [[[a|r|e] l'] w']; by apply HQ.
Qed.

Lemma wp_invoke_module {G R R'} (callee : M G R' unit)
    (Q : Ctl R (option R') -> G -> World -> Prop) g w :
  wp callee (fun done g' w' =>
               match done with
               | Next _ => Q (Next None) g' w'
               | Return r => Q (Next (Some r)) g' w'
               | Raise e => Q (Raise e) g' w'
               end) g w ->
  wp (invoke_module callee) Q g w.
Proof.
  unfold wp, invoke_module. by destruct (callee g w) as [[[a|r|e] g'] w'].
Qed.

(** One statement of a block of [bot.py], symbolically. *)
Ltac bot_step :=
  lazymatch goal with
  | |- wp (tg _ _) _ _ _ =>
      apply wp_tg; [intros ?e ?Hreply | intros ?v ?Hreply]
  | |- wp (invoke_module _) _ _ _ => apply wp_invoke_module
  | |- match ?x with inl _ => _ | inr _ => _ end => destruct x eqn:?
  | _ => wp_step
  end;
  unfold sent_event, image_cache_insert; cbn [image_cache sent].

Ltac the_unit := repeat match goal with v : unit |- _ => destruct v end.

(** ** The upload helper *)

Section Upload.
Context (telegram : Telegram) (py_hash : Str -> Z).

(** What a call of [upload_image_to_telegram] does. *)
Lemma upload_run (image_bytes : Bytes) (diagram_code : Str) (user_id : Z) (g : Bot) (w : World) :
  let cache_key := repr_int (py_hash diagram_code mod 1000000) in
  exists result trace,
    upload_image_to_telegram telegram py_hash image_bytes diagram_code user_id g w
    = (Return result,
       mkBot (match result with
              | Some file_id => <[cache_key := file_id]> (image_cache g)
              | None => image_cache g
              end) (sent g ++ trace), w) /\
    (length trace <= 2)%nat /\
    omap answer_sent trace = [] /\
    (forall cached, image_cache g !! cache_key = Some cached ->
                    result = Some cached /\ trace = []).
Proof.
  intros cache_key. subst cache_key.
  apply (wp_run _ (fun o => exists result trace, o = _ /\ _)).
  destruct g as [ic se]. unfold upload_image_to_telegram.
  repeat bot_step.
  1: { exists (Some s), []. rewrite insert_id, app_nil_r by done.
       split_and!; try done; try (cbn; lia). }
  all: first [ eexists None, _; split; [rewrite <- ?app_assoc; reflexivity|]
             | eexists (Some _), _; split; [rewrite <- ?app_assoc; reflexivity|] ].
  all: cbn [app length omap list_omap mbind option_bind answer_sent].
  all: split_and!; try lia; try congruence; try done.
Qed.

(** X14.  [upload_image_to_telegram] never raises and leaves the
    renderer alone.  It makes at most two calls to Telegram, none of
    them an answer to the inline query, and [image_cache] gains the
    entry for the text exactly when a file id is returned. *)
Theorem upload_never_raises (image_bytes : Bytes) (diagram_code : Str) (user_id : Z)
    (g : Bot) (w : World) :
  exists result trace,
    upload_image_to_telegram telegram py_hash image_bytes diagram_code user_id g w
    = (Return result,
       mkBot (match result with
              | Some file_id =>
                  <[repr_int (py_hash diagram_code mod 1000000) := file_id]> (image_cache g)
              | None => image_cache g
              end) (sent g ++ trace), w) /\
    (length trace <= 2)%nat /\
    omap answer_sent trace = [].
Proof.
  destruct (upload_run image_bytes diagram_code user_id g w)
    as (result & trace & Hrun & Hlen & Hquiet & _).
  by exists result, trace.
Qed.

(** X15.  The file id kept for a text is replayed, without any call to
    Telegram, for every text whose [hash] has the same last six decimal
    digits, whatever image is passed. *)
Theorem upload_collision_replays (image_bytes1 image_bytes2 : Bytes)
    (code1 code2 : Str) (user1 user2 : Z) (g g1 : Bot) (w w1 : World) file_id :
  upload_image_to_telegram telegram py_hash image_bytes1 code1 user1 g w
  = (Return (Some file_id), g1, w1) ->
  py_hash code1 mod 1000000 = py_hash code2 mod 1000000 ->
  upload_image_to_telegram telegram py_hash image_bytes2 code2 user2 g1 w1
  = (Return (Some file_id), g1, w1).
Proof.
  intros Hfirst Hsame.
  destruct (upload_run image_bytes1 code1 user1 g w)
    as (result1 & trace1 & Hrun1 & _).
  rewrite Hrun1 in Hfirst. injection Hfirst as -> <- <-.
  set (g1 := mkBot _ _).
  assert (image_cache g1 !! repr_int (py_hash code2 mod 1000000) = Some file_id) as Hhit.
  { cbn. rewrite Hsame. apply lookup_insert_eq. }
  destruct (upload_run image_bytes2 code2 user2 g1 w)
    as (result & trace & -> & _ & _ & Hcached).
  destruct (Hcached _ Hhit) as [-> ->].
  by rewrite app_nil_r, insert_id by done.
Qed.

(** X16.  When the photo was sent and its file id read, but the
    temporary message cannot be deleted, the upload returns [None] and
    keeps nothing: the message stays in the user's chat, and the next
    upload of the same text sends the photo again. *)
Theorem upload_lost_when_delete_fails (image_bytes : Bytes) (diagram_code : Str)
    (user_id : Z) (g : Bot) (w : World) message file_id e :
  let photo := mkFile image_bytes
                 (py "mermaid_" ++ str_of_int (py_hash diagram_code mod 1000000) ++ py ".png") in
  let send := SendPhoto user_id photo upload_caption true in
  let delete := DeleteMessage user_id (message_id message) in
  image_cache g !! repr_int (py_hash diagram_code mod 1000000) = None ->
  telegram (sent g) _ send = inr message ->
  largest_photo message = inr file_id ->
  telegram (sent g ++ [TgEv send (inr message)]) _ delete = inl e ->
  upload_image_to_telegram telegram py_hash image_bytes diagram_code user_id g w
  = (Return None,
     mkBot (image_cache g) (sent g ++ [TgEv send (inr message); TgEv delete (inl e)]), w).
Proof.
  intros photo send delete Hmiss Hsend Hphoto Hdelete.
  unfold upload_image_to_telegram, try_except, tg, lib, get_local, set_local, py_return,
    raise, mbind, mret, M_bind, M_ret.
  rewrite Hmiss. fold photo. fold send. rewrite Hsend.
  unfold sent_event. cbn [sent image_cache]. rewrite Hphoto. cbn [sent image_cache].
  fold delete. rewrite Hdelete. cbn [sent image_cache]. by rewrite <- app_assoc.
Qed.

End Upload.

(** ** [strip] *)

Lemma lstrip_snoc (s : Str) (c : N) :
  isspace c = false -> lstrip (s ++ [c]) = lstrip s ++ [c].
Proof.
  intros Hc. induction s as [|a s IH]; cbn; [by rewrite Hc|].
  destruct (isspace a); [exact IH|reflexivity].
Qed.

Lemma lstrip_head (s : Str) c rest :
  lstrip s = c :: rest -> isspace c = false.
Proof.
  induction s as [|a s IH]; cbn; [done|].
  destruct (isspace a) eqn:Ha; [exact IH|]. by intros [= <- <-].
Qed.

Lemma lstrip_nil (s : Str) :
  lstrip s = [] <-> Forall (fun c => isspace c = true) s.
Proof.
  induction s as [|a s IH]; cbn; [by split|].
  destruct (isspace a) eqn:Ha.
  - rewrite IH. split; [by constructor|by inversion 1].
  - split; [done|]. inversion 1; congruence.
Qed.

(** The texts [strip] empties are the blank ones. *)
Lemma strip_nil (s : Str) :
  strip s = [] <-> Forall (fun c => isspace c = true) s.
Proof.
  rewrite <- lstrip_nil. unfold strip, rstrip.
  destruct (lstrip s) as [|c rest] eqn:Hs; [done|].
  apply lstrip_head in Hs. cbn [rev]. rewrite (lstrip_snoc _ _ Hs), rev_app_distr.
  done.
Qed.

(** [strip] keeps the first character that is not white space. *)
Lemma strip_head (s : Str) c rest :
  lstrip s = c :: rest -> exists rest', strip s = c :: rest'.
Proof.
  intros Hs. unfold strip, rstrip. rewrite Hs.
  apply lstrip_head in Hs. cbn [rev]. rewrite (lstrip_snoc _ _ Hs), rev_app_distr.
  cbn. eauto.
Qed.

(** ** The handlers *)

Section Handlers.
Context (driver : Driver) `{Pillow} (telegram : Telegram) (py_hash : Str -> Z).

Lemma render_returns_or_raises (mermaid_code : Str) (w : World) :
  match (call (render_diagram driver mermaid_code) None w).1 with
  | Next _ => False
  | _ => True
  end.
Proof.
  destruct (render_cases driver mermaid_code w)
    as [| | |b data r trace final _ _ _ Hrun]; cbn [fst]; try done.
  by destruct (run_final _ _ _ Hrun) as [->|(e & -> & _)].
Qed.

Lemma wp_render {L R} (mermaid_code : Str)
    (Q : Ctl R (option RenderResult) -> L -> World -> Prop) l w :
  (forall r w', call (render_diagram driver mermaid_code) None w = (Return r, w') ->
                Q (Next (Some r)) l w') ->
  (forall e w', call (render_diagram driver mermaid_code) None w = (Raise e, w') ->
                Q (Raise e) l w') ->
  wp (invoke (render_diagram driver mermaid_code) None) Q l w.
Proof.
  intros Hr He. apply wp_invoke. intros done w' Hcall.
  pose proof (render_returns_or_raises mermaid_code w) as Hnext.
  rewrite Hcall in Hnext. destruct done as [?|r|e]; [done|by apply Hr|by apply He].
Qed.

Lemma wp_upload {R} (image_bytes : Bytes) (diagram_code : Str) (user_id : Z)
    (Q : Ctl R (option (option Str)) -> Bot -> World -> Prop) g w :
  (forall result ic trace,
      upload_image_to_telegram telegram py_hash image_bytes diagram_code user_id g w
      = (Return result, mkBot ic (sent g ++ trace), w) ->
      omap answer_sent trace = [] ->
      Q (Next (Some result)) (mkBot ic (sent g ++ trace)) w) ->
  wp (invoke_module (upload_image_to_telegram telegram py_hash image_bytes diagram_code user_id))
     Q g w.
Proof.
  intros HQ. unfold wp, invoke_module.
  destruct (upload_run telegram py_hash image_bytes diagram_code user_id g w)
    as (result & trace & Hrun & _ & Hquiet & _).
  rewrite Hrun. by apply HQ.
Qed.

Ltac handler_step :=
  lazymatch goal with
  | |- wp (invoke (render_diagram _ _) _) _ _ _ =>
      apply wp_render; [intros ?r ?w' ?Hrender | intros ?e ?w' ?Hrender]
  | |- wp (invoke_module (upload_image_to_telegram _ _ _ _ _)) _ _ _ =>
      apply wp_upload; intros ?result ?ic ?trace ?Hupload ?Hquiet
  | _ => bot_step
  end.

Ltac reliable_replies Hreliable :=
  try match goal with
      | Hreply : telegram ?h ?T ?c = inl _ |- _ =>
          let Hv := fresh in
          destruct (Hreliable h T c) as [? Hv]; rewrite Hv in Hreply; discriminate Hreply
      end.

(** X17.  A message whose text is blank, or whose first character after
    the leading white space is a slash, is ignored: no call to Telegram,
    no call to the renderer. *)
Theorem handle_mermaid_code_ignores (message : Message) (g : Bot) (w : World) :
  (forall c, head (lstrip (text message)) = Some c -> c = 0x2F%N) ->
  handle_mermaid_code driver telegram message g w = (Return tt, g, w).
Proof.
  intros Hhead. unfold handle_mermaid_code.
  destruct (lstrip (text message)) as [|c rest] eqn:Hs.
  - apply lstrip_nil, strip_nil in Hs. by rewrite Hs.
  - destruct (strip_head _ _ _ Hs) as [rest' ->].
    cbn. by rewrite (Hhead c eq_refl).
Qed.

(** X18.  When Telegram's calls return, every other message of a sender
    gets the chat action and then exactly one reply: the photo when the
    render returned a non-empty image, the text with the renderer's
    message when it returned anything else, and the system-error text
    when it raised. *)
Theorem handle_mermaid_code_replies (message : Message) (g : Bot) (w : World) uid :
  reliable telegram ->
  from_user message = Some uid ->
  let mermaid_code := strip (text message) in
  mermaid_code <> [] ->
  starts_with_slash mermaid_code = false ->
  let rendered := call (render_diagram driver mermaid_code) None w in
  exists ack reply,
    handle_mermaid_code driver telegram message g w
    = (Next tt,
       mkBot (image_cache g)
             (sent g ++ [TgEv (SendChatAction (chat message) "upload_photo") (inr ack);
                         TgEv (reply_to message mermaid_code rendered.1) (inr reply)]),
       rendered.2).
Proof.
  intros Hreliable Hfrom mermaid_code Hnonempty Hslash rendered. subst rendered.
  apply (wp_run _ (fun o => exists ack reply, o = _)).
  unfold handle_mermaid_code. fold mermaid_code.
  destruct mermaid_code as [|c code] eqn:Hcode; [done|]. rewrite Hslash, Hfrom.
  destruct g as [ic se].
  repeat handler_step.
  all: reliable_replies Hreliable.
  all: try match goal with
         | Hid : from_option _ _ _ = inl _ |- _ => discriminate Hid
         end.
  all: rewrite Hrender; cbn [fst snd reply_to]; rewrite <- ?app_assoc; cbn [app].
  all: the_unit.
  all: try (eexists _, _; reflexivity).
Qed.

(** X19.  A fault leaves [handle_mermaid_code] only from the chat action
    or from the answer that reports a system error: every fault of the
    renderer and of the first answer is caught and reported. *)
Theorem handle_mermaid_code_faults (message : Message) (g g' : Bot) (w w' : World) e :
  handle_mermaid_code driver telegram message g w = (Raise e, g', w') ->
  exists earlier,
    sent g' = sent g ++ earlier ++
              [TgEv (SendChatAction (chat message) "upload_photo") (inl e)] \/
    exists cause,
      sent g' = sent g ++ earlier ++
                [TgEv (MessageAnswer message (system_error_text cause)) (inl e)].
Proof.
  revert e g' w'.
  apply (wp_run _ (fun o => forall e g' w', o = (Raise e, g', w') -> _)).
  unfold handle_mermaid_code.
  destruct (match strip (text message) with [] => true | _ => _ end).
  { apply wp_return. by intros ??? [=]. }
  destruct g as [ic se].
  repeat handler_step.
  all: intros e' g' w'' [= <- <- <-]; cbn [sent].
  all: rewrite <- ?app_assoc; cbn [app].
  1: by exists []; left.
  all: match goal with
       | |- exists earlier, _ \/ (exists cause, ?s ++ ?a :: ?rest = _) =>
           exists (removelast (a :: rest))
       end; right; eexists; cbn [removelast app]; reflexivity.
Qed.

(** X20.  A blank inline query is answered with the help article, to be
    cached for 300 seconds, and the renderer is not called.  When that
    answer got through, it is the only call, and [image_cache] is as it
    was. *)
Theorem blank_query_gets_help (q : InlineQuery) (g : Bot) (w : World) :
  Forall (fun c => isspace c = true) (query q) ->
  exists final reply rest,
    handle_inline_query driver telegram py_hash q g w
    = (final,
       mkBot (image_cache g)
             (sent g ++ TgEv (AnswerInlineQuery q [help_article] 300) reply :: rest),
       w) /\
    (forall ack, reply = inr ack -> rest = [] /\ final = Return tt).
Proof.
  intros Hblank. apply strip_nil in Hblank.
  apply (wp_run _ (fun o => exists final reply rest, o = _ /\ _)).
  unfold handle_inline_query. rewrite Hblank. destruct g as [ic se].
  repeat handler_step.
  all: rewrite <- ?app_assoc; cbn [app].
  all: eexists _, _, _; split; [reflexivity|]; by intros ack [=].
Qed.

(** X21.  When Telegram's calls return, every inline query is answered
    exactly once, by the last call the handler makes, with at most two
    results; the handler does not raise, whatever the renderer did. *)
Theorem inline_query_answered_once (q : InlineQuery) (g : Bot) (w : World) :
  reliable telegram ->
  exists final g' w' earlier results cache_time ack,
    handle_inline_query driver telegram py_hash q g w = (final, g', w') /\
    (final = Next tt \/ final = Return tt) /\
    sent g' = sent g ++ earlier ++
              [TgEv (AnswerInlineQuery q results cache_time) (inr ack)] /\
    omap answer_sent earlier = [] /\
    (length results <= 2)%nat.
Proof.
  intros Hreliable.
  apply (wp_run _ (fun o => exists final g' w' earlier results cache_time ack,
                       o = (final, g', w') /\ _)).
  unfold handle_inline_query. destruct g as [ic se].
  destruct (strip (query q)) as [|c code].
  all: repeat handler_step.
  all: reliable_replies Hreliable.
  all: the_unit.
  all: eexists _, _, _;
    lazymatch goal with
    | Hquiet : omap answer_sent ?t = [] |- _ => exists t
    | _ => exists []
    end.
  all: eexists _, _, _; cbn [sent]; rewrite <- ?app_assoc; cbn [app].
  all: split; [reflexivity|].
  all: split_and!; try reflexivity; try assumption; eauto.
  all: try (destruct (truthy _); cbn; lia).
Qed.

(** X22.  When the render returned no image and a non-empty message,
    the answer holds exactly the error article with that message, to be
    cached for 60 seconds; nothing is uploaded. *)
Theorem inline_failure_answer (q : InlineQuery) (g : Bot) (w w' : World) c rest :
  reliable telegram ->
  let query_text := strip (query q) in
  query_text <> [] ->
  call (render_diagram driver query_text) None w = (Return (None, Some (c :: rest)), w') ->
  exists ack,
    handle_inline_query driver telegram py_hash q g w
    = (Next tt,
       mkBot (image_cache g)
             (sent g ++ [TgEv (AnswerInlineQuery q [error_article (c :: rest) query_text] 60)
                              (inr ack)]),
       w').
Proof.
  intros Hreliable query_text Hnonempty Hrendered.
  apply (wp_run _ (fun o => exists ack, o = _)).
  unfold handle_inline_query. fold query_text.
  destruct query_text as [|a code] eqn:Hq; [done|]. destruct g as [ic se].
  repeat handler_step.
  all: rewrite Hrendered in Hrender; simplify_eq.
  all: reliable_replies Hreliable.
  all: the_unit.
  eexists. reflexivity.
Qed.

(** X23.  When the render returned a non-empty image and no message,
    the answer holds exactly one result, under the id made of the
    text's [hash]: the cached photo when the upload gave a non-empty
    file id, and otherwise the article that shows the code. *)
Theorem inline_success_answer (q : InlineQuery) (g : Bot) (w w' : World) b bs :
  reliable telegram ->
  let query_text := strip (query q) in
  let diagram_id := py "mermaid_" ++ str_of_int (py_hash query_text mod 1000000) in
  query_text <> [] ->
  call (render_diagram driver query_text) None w = (Return (Some (b :: bs), None), w') ->
  exists file_id g1 ack,
    upload_image_to_telegram telegram py_hash (b :: bs) query_text (query_user q) g w'
    = (Return file_id, g1, w') /\
    handle_inline_query driver telegram py_hash q g w
    = (Next tt,
       mkBot (image_cache g1)
             (sent g1 ++ [TgEv (AnswerInlineQuery q
                                  [image_result diagram_id query_text file_id] 60)
                               (inr ack)]),
       w').
Proof.
  intros Hreliable query_text diagram_id Hnonempty Hrendered. subst diagram_id.
  apply (wp_run _ (fun o => exists file_id g1 ack, _ /\ o = _)).
  unfold handle_inline_query. fold query_text.
  destruct query_text as [|a code] eqn:Hq; [done|]. destruct g as [ic se].
  repeat handler_step.
  all: rewrite Hrendered in Hrender; simplify_eq.
  all: reliable_replies Hreliable.
  all: the_unit.
  all: destruct result as [[|? ?]|]; try discriminate.
  all: try match goal with
         | Hid : mjoin _ = Some (_ :: _) |- _ => injection Hid as <- <-
         end.
  all: eexists _, _, _; (split; [exact Hupload|]); reflexivity.
Qed.

(** X24.  When [render_diagram] raises, the handler makes one call: the
    answer with the system-error article that quotes the exception, to
    be cached for 10 seconds; it raises only when that answer faults. *)
Theorem inline_render_fault_answer (q : InlineQuery) (g : Bot) (w w' : World) e :
  let query_text := strip (query q) in
  query_text <> [] ->
  call (render_diagram driver query_text) None w = (Raise e, w') ->
  exists final reply,
    handle_inline_query driver telegram py_hash q g w
    = (final,
       mkBot (image_cache g)
             (sent g ++ [TgEv (AnswerInlineQuery q [system_error_article e] 10) reply]),
       w') /\
    final = match reply with inl e' => Raise e' | inr _ => Next tt end.
Proof.
  intros query_text Hnonempty Hrendered.
  apply (wp_run _ (fun o => exists final reply, o = _ /\ _)).
  unfold handle_inline_query. fold query_text.
  destruct query_text as [|a code] eqn:Hq; [done|]. destruct g as [ic se].
  repeat handler_step.
  all: rewrite Hrendered in Hrender; simplify_eq.
  all: the_unit.
  all: eexists _, _; split; reflexivity.
Qed.

(** X25.  A fault leaves [handle_inline_query] only from the answer that
    reports a system error. *)
Theorem handle_inline_query_faults (q : InlineQuery) (g g' : Bot) (w w' : World) e :
  handle_inline_query driver telegram py_hash q g w = (Raise e, g', w') ->
  exists earlier cause,
    sent g' = sent g ++ earlier ++
              [TgEv (AnswerInlineQuery q [system_error_article cause] 10) (inl e)].
Proof.
  revert e g' w'.
  apply (wp_run _ (fun o => forall e g' w', o = (Raise e, g', w') -> _)).
  unfold handle_inline_query. destruct g as [ic se].
  destruct (strip (query q)) as [|c code].
  all: repeat handler_step.
  all: intros e' g' w'' [= <- <- <-]; cbn [sent].
  all: rewrite <- ?app_assoc; cbn [app].
  all: lazymatch goal with
       | |- exists earlier cause, ?s ++ ?t ++ ?a :: ?rest = _ =>
           exists (t ++ removelast (a :: rest))
       | |- exists earlier cause, ?s ++ ?a :: ?rest = _ =>
           exists (removelast (a :: rest))
       end.
  all: eexists; cbn [removelast app]; rewrite <- ?app_assoc; reflexivity.
Qed.

End Handlers.

(** ** [main] *)

Lemma no_close_no_fault (trace : list Event) :
  omap browser_closed trace = [] -> omap browser_close_fault trace = [].
Proof.
  induction trace as [|[T c r] trace IH]; [done|].
  destruct c; cbn; try exact IH; discriminate.
Qed.

Section Main.
Context (driver : Driver) `{Pillow} (telegram : Telegram).
Context (start_polling : M Bot unit unit).

Ltac main_step :=
  lazymatch goal with
  | |- wp (invoke (start _) _) _ _ _ =>
      apply wp_invoke; intros [?|?|?e] ?w' ?Hstart
  | |- wp (invoke (stop _) _) _ _ _ =>
      apply wp_invoke; intros [?|?|?e] ?w' ?Hstop
  | |- wp (invoke_module start_polling) _ _ _ =>
      apply wp_invoke_module, wp_any; intros [?|?|?e] ?g' ?w' ?Hpolling
  | _ => bot_step
  end.

Lemma stop_fault (w w' : World) e :
  call (stop driver) tt w = (Raise e, w') ->
  (exists b, last (log w') = Some (Ev (BrowserClose b) (inl e))) \/
  (exists pw, last (log w') = Some (Ev (PlaywrightStop pw) (inl e))).
Proof.
  revert e w'.
  apply (wp_call _ (fun o => forall e w', o = (Raise e, w') -> _)).
  unfold stop. repeat wp_step.
  all: intros e' w'' [= <- <-]; cbn [log]; rewrite last_snoc; eauto.
Qed.

(** X26.  No fault of [renderer.start()] or of the dispatch loop leaves
    [main]: when [main] raises, the exception is that of the last call
    of the shutdown, [browser.close()], [playwright.stop()] or
    [bot.session.close()]. *)
Theorem main_faults (g g' : Bot) (w w' : World) e :
  main driver telegram start_polling g w = (Raise e, g', w') ->
  (exists b, last (log w') = Some (Ev (BrowserClose b) (inl e))) \/
  (exists pw, last (log w') = Some (Ev (PlaywrightStop pw) (inl e))) \/
  last (sent g') = Some (TgEv SessionClose (inl e)).
Proof.
  revert e g' w'.
  apply (wp_run _ (fun o => forall e g' w', o = (Raise e, g', w') -> _)).
  unfold main.
  repeat main_step.
  all: intros e' g'' w'' [= <- <- <-].
  all: try (destruct (stop_fault _ _ _ Hstop) as [Hclose|Hplay]; by eauto).
  all: right; right; cbn [sent]; by rewrite last_snoc.
Qed.

(** X27.  When [browser.close()] faults in the shutdown, [main] raises
    that fault, and neither Playwright is stopped nor the bot's session
    closed. *)
Theorem shutdown_stops_at_close_fault (g g1 : Bot) (w w0 w1 : World) polled b e :
  call (start driver) tt w = (Next tt, w0) ->
  start_polling g w0 = (polled, g1, w1) ->
  browser w1 = Some b ->
  driver (log w1) unit (BrowserClose b) = inl e ->
  main driver telegram start_polling g w
  = (Raise e, g1,
     mkWorld (browser w1) (playwright w1) (cache w1)
             (log w1 ++ [Ev (BrowserClose b) (inl e)])).
Proof.
  intros Hstart Hpolling Hb Hclose.
  assert (call (stop driver) tt w1
          = (Raise e, mkWorld (browser w1) (playwright w1) (cache w1)
                              (log w1 ++ [Ev (BrowserClose b) (inl e)]))) as Hstop.
  { apply (wp_call _ (fun o => o = _)). unfold stop.
    destruct w1 as [br pw ca lg]; cbn [browser playwright cache log] in *. subst br.
    repeat wp_step; cbv beta iota; cbn [log] in *; rewrite Hclose in *; by simplify_eq. }
  apply (wp_run _ (fun o => o = _)). unfold main.
  do 5 main_step; rewrite Hstart in *; simplify_eq.
  do 3 main_step; rewrite Hpolling in *; simplify_eq.
  all: repeat main_step; rewrite Hstop in *; by simplify_eq.
Qed.

(** X28.  When [renderer.start()] raises on a fresh renderer, [main]
    does not run the dispatch loop and still shuts down: a Playwright
    that was started is asked to stop, no browser is left launched, and
    unless that stop faults the bot's session is closed. *)
Theorem failed_start_is_cleaned_up (g : Bot) (w w0 : World) e :
  browser w = None -> playwright w = None ->
  call (start driver) tt w = (Raise e, w0) ->
  exists final closing w' trace,
    main driver telegram start_polling g w
    = (final, mkBot (image_cache g) (sent g ++ closing), w') /\
    log w' = log w ++ trace /\
    omap playwright_stopped trace = omap playwright_started trace /\
    omap launched trace = [] /\
    (omap fault_of trace = [e] -> exists reply, closing = [TgEv SessionClose reply]).
Proof.
  intros Hb Hpw Hstart.
  pose proof (start_run driver w) as Hrun. rewrite Hstart in Hrun.
  destruct Hrun as (_ & t1 & Hlog1 & _ & _ & Hstopped1 & Hplaywright & Hf1 & Hb0 & Hlaunch1).
  pose proof (stop_run driver w0) as Hrun.
  apply (wp_run _ (fun o => exists final closing w' trace, o = _ /\ _)).
  unfold main. destruct g as [ic se].
  do 4 main_step; rewrite Hstart in *; simplify_eq.
  do 3 main_step.
  all: rewrite Hstop in Hrun.
  all: destruct Hrun as (_ & Hpw' & _ & t2 & Hlog2 & Hclosed2 & Hlaunch2 & Hstarted2 & Hfinal).
  all: rewrite Hb0, Hb in Hclosed2; pose proof (no_close_no_fault _ Hclosed2) as Hnofault.
  all: rewrite Hnofault in Hfinal; destruct Hfinal as [Hstopped2 Hquiet].
  all: repeat main_step.
  all: first [ eexists _, _, _, (t1 ++ t2); split; [rewrite <- ?app_assoc; reflexivity|]
             | eexists _, [], _, (t1 ++ t2); split; [by rewrite app_nil_r|] ].
  all: rewrite !omap_app, Hlog2, Hlog1, Hstopped1, Hstopped2, Hlaunch1, Hlaunch2,
         Hstarted2, Hf1, <- app_assoc, app_nil_r.
  all: split_and!; try reflexivity.
  all: try (destruct Hplaywright as [[-> ->]|(pw & -> & ->)]; [by rewrite Hpw|done]).
  all: try (intros _; eexists; reflexivity).
  all: intros Hfaults; destruct (omap fault_of t2); [|discriminate Hfaults].
  all: by specialize (Hquiet eq_refl).
Qed.

End Main.

(** ** Python's library functions on concrete values *)

Example isspace_code_points :
  filter (fun c => isspace c) (N.of_nat <$> seq 0 0x3100)
  = [9; 10; 11; 12; 13; 28; 29; 30; 31; 32; 133; 160; 5760; 8192; 8193; 8194; 8195;
     8196; 8197; 8198; 8199; 8200; 8201; 8202; 8232; 8233; 8239; 8287; 12288]%N.
Proof. vm_compute. reflexivity. Qed.

Example strip_a_query : strip (query a_query) = graph_td.
Proof. vm_compute. reflexivity. Qed.

Example strip_a_message : strip (text a_message) = graph_td.
Proof. vm_compute. reflexivity. Qed.

Example repr_int_digits :
  repr_int 0 = "0"%string /\ repr_int 123456 = "123456"%string /\
  repr_int (-7 mod 1000000) = "999993"%string.
Proof. vm_compute. auto. Qed.

Example first_upload :
  image_cache uploaded = {[ "8"%string := file_id_large ]} /\ length (sent uploaded) = 2%nat.
Proof. vm_compute. auto. Qed.

Lemma obliging_reliable : reliable (tg_scripted obliging).
Proof. intros history T c. destruct c; eexists; reflexivity. Qed.

(** ** Witnesses of the further properties *)

Lemma surrogate_text_raises_witness :
  call (render_diagram (scripted healthy) (H := signature_only) [0x41; 0xD800]%N) None started
  = (Raise UnicodeEncodeError, started).
Proof.
  apply (surrogate_text_raises (scripted healthy) (H := signature_only)).
  - eexists. reflexivity.
  - apply Exists_cons_tl, Exists_cons_hd. reflexivity.
Defined.

Lemma success_image_from_screenshot_witness :
  exists shot,
    omap screenshot_reply (drop (length (log started)) (log rendered)) = [shot] /\
    ([x89; x50; x4e; x47; x0a] = shot \/
     exists im, Image_save (Pillow := signature_only) im "PNG" true 85
                = inr [x89; x50; x4e; x47; x0a]).
Proof.
  apply (success_image_from_screenshot (scripted healthy) (H := signature_only)
           graph_td started 1%nat graph_td_utf8) with (message := None).
  - reflexivity.
  - reflexivity.
  - vm_compute. reflexivity.
  - vm_compute. reflexivity.
Defined.

Lemma render_after_stop_asks_browser_witness :
  exists reply rest,
    log (call (render_diagram (scripted healthy) (H := signature_only) graph_td) None
           (call (stop (scripted healthy)) tt started).2).2
    = log (call (stop (scripted healthy)) tt started).2 ++ Ev (NewPage 1%nat) reply :: rest.
Proof.
  apply (render_after_stop_asks_browser (scripted healthy) (H := signature_only)
           graph_td started 1%nat graph_td_utf8).
  - reflexivity.
  - reflexivity.
  - vm_compute. reflexivity.
Defined.

Lemma cache_keys_are_digests_witness :
  is_cache_key (MD5.hexdigest graph_td_utf8) /\
  exists mermaid_code data,
    encode mermaid_code = inr data /\ MD5.hexdigest graph_td_utf8 = MD5.hexdigest data.
Proof.
  apply (cache_keys_are_digests (scripted healthy) (H := signature_only) rendered
           (MD5.hexdigest graph_td_utf8) (Success [x89; x50; x4e; x47; x0a])).
  - apply (follows_render (scripted healthy) (H := signature_only)),
          (follows_start (scripted healthy) new_renderer), follows_refl.
  - vm_compute. reflexivity.
Defined.

Lemma upload_collision_replays_witness :
  upload_image_to_telegram (tg_scripted obliging) length_hash
    [x47; x0a] (py "graph LR") 78 uploaded new_renderer
  = (Return (Some file_id_large), uploaded, new_renderer).
Proof.
  apply (upload_collision_replays (tg_scripted obliging) length_hash
           [x89; x50] [x47; x0a] (py "graph TD") (py "graph LR") 77 78
           new_bot uploaded new_renderer new_renderer file_id_large).
  - vm_compute. reflexivity.
  - reflexivity.
Defined.

Lemma upload_lost_when_delete_fails_witness :
  exists history,
    upload_image_to_telegram (tg_scripted delete_refused) length_hash
      [x89; x50] (py "graph TD") 77 new_bot new_renderer
    = (Return None, mkBot (image_cache new_bot) (sent new_bot ++ history), new_renderer) /\
    length history = 2%nat.
Proof.
  eexists. split.
  - apply (upload_lost_when_delete_fails (tg_scripted delete_refused) length_hash
             [x89; x50] (py "graph TD") 77 new_bot new_renderer
             (mkSent 1001 (Some [file_id_small; file_id_large])) file_id_large
             (Exception (py "Bad Request: message can't be deleted"))).
    + vm_compute. reflexivity.
    + reflexivity.
    + reflexivity.
    + reflexivity.
  - reflexivity.
Defined.

Lemma handle_mermaid_code_ignores_witness :
  handle_mermaid_code (scripted healthy) (H := signature_only) (tg_scripted obliging)
    a_command new_bot started
  = (Return tt, new_bot, started).
Proof.
  apply (handle_mermaid_code_ignores (scripted healthy) (H := signature_only)).
  intros c Hc. vm_compute in Hc. injection Hc as <-. reflexivity.
Defined.

Lemma handle_mermaid_code_replies_witness :
  exists ack reply,
    handle_mermaid_code (scripted healthy) (H := signature_only) (tg_scripted obliging)
      a_message new_bot started
    = (Next tt,
       mkBot (image_cache new_bot)
             (sent new_bot ++
              [TgEv (SendChatAction (chat a_message) "upload_photo") (inr ack);
               TgEv (reply_to a_message (strip (text a_message))
                       (call (render_diagram (scripted healthy) (H := signature_only)
                                (strip (text a_message))) None started).1)
                    (inr reply)]),
       (call (render_diagram (scripted healthy) (H := signature_only)
                (strip (text a_message))) None started).2).
Proof.
  apply (handle_mermaid_code_replies (scripted healthy) (H := signature_only)
           (tg_scripted obliging) a_message new_bot started 77 obliging_reliable).
  - reflexivity.
  - vm_compute. discriminate.
  - vm_compute. reflexivity.
Defined.

Lemma handle_mermaid_code_faults_witness :
  exists earlier,
    [TgEv (SendChatAction (chat a_message) "upload_photo")
          (inl (Exception (py "Bad Gateway")))]
    = sent new_bot ++ earlier ++
      [TgEv (SendChatAction (chat a_message) "upload_photo")
            (inl (Exception (py "Bad Gateway")))] \/
    exists cause,
      [TgEv (SendChatAction (chat a_message) "upload_photo")
            (inl (Exception (py "Bad Gateway")))]
      = sent new_bot ++ earlier ++
        [TgEv (MessageAnswer a_message (system_error_text cause))
              (inl (Exception (py "Bad Gateway")))].
Proof.
  apply (handle_mermaid_code_faults (scripted healthy) (H := signature_only)
           (tg_scripted unreachable) a_message new_bot
           (mkBot ∅ [TgEv (SendChatAction (chat a_message) "upload_photo")
                          (inl (Exception (py "Bad Gateway")))])
           started started).
  vm_compute. reflexivity.
Defined.

Lemma blank_query_gets_help_witness :
  exists final reply rest,
    handle_inline_query (scripted healthy) (H := signature_only) (tg_scripted obliging)
      length_hash blank_query new_bot started
    = (final,
       mkBot (image_cache new_bot)
             (sent new_bot ++
              TgEv (AnswerInlineQuery blank_query [help_article] 300) reply :: rest),
       started) /\
    (forall ack, reply = inr ack -> rest = [] /\ final = Return tt).
Proof.
  apply (blank_query_gets_help (scripted healthy) (H := signature_only)).
  repeat constructor.
Defined.

Lemma inline_query_answered_once_witness :
  exists final g' w' earlier results cache_time ack,
    handle_inline_query (scripted healthy) (H := signature_only) (tg_scripted obliging)
      length_hash a_query new_bot started = (final, g', w') /\
    (final = Next tt \/ final = Return tt) /\
    sent g' = sent new_bot ++ earlier ++
              [TgEv (AnswerInlineQuery a_query results cache_time) (inr ack)] /\
    omap answer_sent earlier = [] /\
    (length results <= 2)%nat.
Proof.
  apply (inline_query_answered_once (scripted healthy) (H := signature_only)
           (tg_scripted obliging) length_hash a_query new_bot started obliging_reliable).
Defined.

Lemma inline_failure_answer_witness :
  exists ack,
    handle_inline_query (scripted (layout_error parse_error)) (H := signature_only)
      (tg_scripted obliging) length_hash a_query new_bot started
    = (Next tt,
       mkBot (image_cache new_bot)
             (sent new_bot ++
              [TgEv (AnswerInlineQuery a_query
                       [error_article (0x4D%N :: py "ermaid error: Parse error on line 1")
                          (strip (query a_query))] 60)
                    (inr ack)]),
       rejected).
Proof.
  apply (inline_failure_answer (scripted (layout_error parse_error)) (H := signature_only)
           (tg_scripted obliging) length_hash a_query new_bot started rejected
           0x4D%N (py "ermaid error: Parse error on line 1") obliging_reliable).
  - vm_compute. discriminate.
  - vm_compute. reflexivity.
Defined.

Lemma inline_success_answer_witness :
  exists file_id g1 ack,
    upload_image_to_telegram (tg_scripted obliging) length_hash
      [x89; x50; x4e; x47; x0a] (strip (query a_query)) (query_user a_query) new_bot rendered
    = (Return file_id, g1, rendered) /\
    handle_inline_query (scripted healthy) (H := signature_only) (tg_scripted obliging)
      length_hash a_query new_bot started
    = (Next tt,
       mkBot (image_cache g1)
             (sent g1 ++
              [TgEv (AnswerInlineQuery a_query
                       [image_result
                          (py "mermaid_" ++
                           str_of_int (length_hash (strip (query a_query)) mod 1000000))
                          (strip (query a_query)) file_id] 60)
                    (inr ack)]),
       rendered).
Proof.
  apply (inline_success_answer (scripted healthy) (H := signature_only)
           (tg_scripted obliging) length_hash a_query new_bot started rendered
           x89 [x50; x4e; x47; x0a] obliging_reliable).
  - vm_compute. discriminate.
  - vm_compute. reflexivity.
Defined.

Lemma inline_render_fault_answer_witness :
  exists final reply,
    handle_inline_query (scripted close_fails) (H := signature_only) (tg_scripted obliging)
      length_hash a_query new_bot started
    = (final,
       mkBot (image_cache new_bot)
             (sent new_bot ++
              [TgEv (AnswerInlineQuery a_query
                       [system_error_article (Exception (py "Connection closed"))] 10)
                    reply]),
       (call (render_diagram (scripted close_fails) (H := signature_only)
                (strip (query a_query))) None started).2) /\
    final = match reply with inl e' => Raise e' | inr _ => Next tt end.
Proof.
  apply (inline_render_fault_answer (scripted close_fails) (H := signature_only)
           (tg_scripted obliging) length_hash a_query new_bot started).
  - vm_compute. discriminate.
  - vm_compute. reflexivity.
Defined.

Lemma handle_inline_query_faults_witness :
  exists earlier cause,
    sent (handle_inline_query (scripted healthy) (H := signature_only)
            (tg_scripted unreachable) length_hash a_query new_bot started).1.2
    = sent new_bot ++ earlier ++
      [TgEv (AnswerInlineQuery a_query [system_error_article cause] 10)
            (inl (Exception (py "Bad Gateway")))].
Proof.
  apply (handle_inline_query_faults (scripted healthy) (H := signature_only)
           (tg_scripted unreachable) length_hash a_query new_bot _ started
           (handle_inline_query (scripted healthy) (H := signature_only)
              (tg_scripted unreachable) length_hash a_query new_bot started).2).
  vm_compute. reflexivity.
Defined.

Lemma main_faults_witness :
  (exists b,
      last (log (main close_refused (tg_scripted obliging) idle_polling
                   new_bot new_renderer).2)
      = Some (Ev (BrowserClose b) (inl (Exception (py "Target closed"))))) \/
  (exists pw,
      last (log (main close_refused (tg_scripted obliging) idle_polling
                   new_bot new_renderer).2)
      = Some (Ev (PlaywrightStop pw) (inl (Exception (py "Target closed"))))) \/
  last (sent (main close_refused (tg_scripted obliging) idle_polling
                new_bot new_renderer).1.2)
  = Some (TgEv SessionClose (inl (Exception (py "Target closed")))).
Proof.
  apply (main_faults close_refused (tg_scripted obliging) idle_polling new_bot _ new_renderer).
  vm_compute. reflexivity.
Defined.

Lemma shutdown_stops_at_close_fault_witness :
  main close_refused (tg_scripted obliging) idle_polling new_bot new_renderer
  = (Raise (Exception (py "Target closed")), new_bot,
     mkWorld (browser started) (playwright started) (cache started)
             (log started ++
              [Ev (BrowserClose 1%nat) (inl (Exception (py "Target closed")))])).
Proof.
  apply (shutdown_stops_at_close_fault close_refused (tg_scripted obliging) idle_polling
           new_bot new_bot new_renderer started started (Next tt) 1%nat
           (Exception (py "Target closed"))).
  - vm_compute. reflexivity.
  - reflexivity.
  - reflexivity.
  - reflexivity.
Defined.

Lemma failed_start_is_cleaned_up_witness :
  exists final closing w' trace,
    main (scripted no_browser) (tg_scripted obliging) idle_polling new_bot new_renderer
    = (final, mkBot (image_cache new_bot) (sent new_bot ++ closing), w') /\
    log w' = log new_renderer ++ trace /\
    omap playwright_stopped trace = omap playwright_started trace /\
    omap launched trace = [] /\
    (omap fault_of trace = [Exception (py "Executable doesn't exist")] ->
     exists reply, closing = [TgEv SessionClose reply]).
Proof.
  apply (failed_start_is_cleaned_up (scripted no_browser) (tg_scripted obliging) idle_polling
           new_bot new_renderer start_failed).
  - reflexivity.
  - reflexivity.
  - vm_compute. reflexivity.
Defined.
